(** * The synchronous OCR service: dispatcher, bulk processor and resume endpoint

    A shallow embedding of [1-python_basics/nanonets_ocr_old.py]: the three
    functions [extract_resume_fields], [ocr_smalter_sync] and
    [run_bulk_ocr_task_sync], the string helpers of the Python library they
    call, and the temporary storage they create and remove.

    Effects are explicit: a computation takes the temporary storage (a finite
    map from paths to nodes), and gives back a result or a raised exception,
    the storage it leaves behind and the chronological log of the effects it
    performed. *)

From Stdlib Require Import ZArith Ascii String DecimalString.
From stdpp Require Import base option list gmap strings fin_maps.

Local Open Scope string_scope.
Local Open Scope Z_scope.

(** ** Python strings *)

Module PyStr.

(** [str.lower] and [str.upper] on the ASCII range.  Outside that range no
    code point lowers to one of the letters of the suffixes tested below,
    and the tag computed by [upper] is compared with ASCII literals only. *)
Definition lower_char (c : ascii) : ascii :=
  let n := nat_of_ascii c in
  if ((65 <=? n) && (n <=? 90))%nat then ascii_of_nat (n + 32) else c.

Definition upper_char (c : ascii) : ascii :=
  let n := nat_of_ascii c in
  if ((97 <=? n) && (n <=? 122))%nat then ascii_of_nat (n - 32) else c.

Fixpoint lower (s : string) : string :=
  match s with
  | EmptyString => EmptyString
  | String c s' => String (lower_char c) (lower s')
  end.

Fixpoint upper (s : string) : string :=
  match s with
  | EmptyString => EmptyString
  | String c s' => String (upper_char c) (upper s')
  end.

(** [s.endswith(suf)] *)
Definition endswith (s suf : string) : bool :=
  let n := String.length s in
  let k := String.length suf in
  ((k <=? n)%nat && String.eqb (String.substring (n - k) k s) suf)%bool.

(** [s.endswith((a, b, ...))] with a tuple of suffixes *)
Definition endswith_any (s : string) (sufs : list string) : bool :=
  existsb (endswith s) sufs.

(** [s.replace(c, "")] for a one-character [c] *)
Fixpoint remove_char (c : ascii) (s : string) : string :=
  match s with
  | EmptyString => EmptyString
  | String a s' =>
      if Ascii.eqb a c then remove_char c s' else String a (remove_char c s')
  end.

(** [s.rfind(c)] for a one-character [c]: the last index, or [-1]. *)
Fixpoint rfind_from (c : ascii) (s : string) (i : Z) (found : Z) : Z :=
  match s with
  | EmptyString => found
  | String a s' => rfind_from c s' (i + 1) (if Ascii.eqb a c then i else found)
  end.

Definition rfind (c : ascii) (s : string) : Z := rfind_from c s 0 (-1).

(** [s[i:i+1]], the empty string out of range *)
Definition char_at (s : string) (i : Z) : option ascii :=
  if i <? 0 then None else String.get (Z.to_nat i) s.

(** [s[:i]] and [s[i:]] for [0 <= i] *)
Definition take (i : Z) (s : string) : string :=
  String.substring 0 (Z.to_nat i) s.

Definition drop (i : Z) (s : string) : string :=
  String.substring (Z.to_nat i) (String.length s - Z.to_nat i) s.

(** [genericpath._splitext(p, sep, None, extsep)], the loop that skips the
    leading dots of the last component, with [steps] the number of indices
    left before [dotIndex]. *)
Fixpoint splitext_scan (p : string) (dotIndex filenameIndex : Z) (steps : nat)
  : string * string :=
  match steps with
  | O => (p, EmptyString)
  | S steps' =>
      if bool_decide (char_at p filenameIndex = Some "."%char)
      then splitext_scan p dotIndex (filenameIndex + 1) steps'
      else (take dotIndex p, drop dotIndex p)
  end.

(** [os.path.splitext(p)] of [posixpath] *)
Definition splitext (p : string) : string * string :=
  let sepIndex := rfind "/"%char p in
  let dotIndex := rfind "."%char p in
  if sepIndex <? dotIndex
  then splitext_scan p dotIndex (sepIndex + 1) (Z.to_nat (dotIndex - (sepIndex + 1)))
  else (p, EmptyString).

(** [str(n)] for an integer *)
Definition of_Z (n : Z) : string := NilZero.string_of_int (Z.to_int n).

End PyStr.

(** ** Values, exceptions and the two enumerations *)

(** [bytes] objects: one character per byte. *)
Definition bytes : Type := string.

(** JSON-serialisable Python values.  A [dict] keeps its keys in insertion
    order. *)
#[warnings="-register-all"] Inductive Json : Type :=
| JNull
| JBool (b : bool)
| JNum (n : Z)
| JStr (s : string)
| JList (items : list Json)
| JDict (fields : list (string * Json)).

Module PyDict.

(** [d[k]], [k in d] and [d[k] = v] *)
Fixpoint get (k : string) (d : list (string * Json)) : option Json :=
  match d with
  | [] => None
  | (k', v) :: d' => if String.eqb k' k then Some v else get k d'
  end.


Fixpoint set (k : string) (v : Json) (d : list (string * Json))
  : list (string * Json) :=
  match d with
  | [] => [(k, v)]
  | (k', v') :: d' =>
      if String.eqb k' k then (k, v) :: d' else (k', v') :: set k v d'
  end.

End PyDict.

(** Exceptions.  [HTTPException] is the framework's; every other exception
    class is kept by name with the message [str(e)] gives.  All of them derive
    from [Exception], so that [except Exception] catches each one. *)
Inductive Exc : Type :=
| HTTPException (status_code : Z) (detail : string)
| PyError (cls : string) (msg : string).

Definition NameError (name : string) : Exc :=
  PyError "NameError" ("name '" ++ name ++ "' is not defined").

Definition AttributeError_None (attr : string) : Exc :=
  PyError "AttributeError" ("'NoneType' object has no attribute '" ++ attr ++ "'").

Definition FileNotFoundError (path : string) : Exc :=
  PyError "FileNotFoundError" ("[Errno 2] No such file or directory: '" ++ path ++ "'").

Definition IsADirectoryError (path : string) : Exc :=
  PyError "IsADirectoryError" ("[Errno 21] Is a directory: '" ++ path ++ "'").

(** [str(e)]; for [HTTPException] the framework prints status and detail. *)
Definition str_exc (e : Exc) : string :=
  match e with
  | HTTPException status_code detail => PyStr.of_Z status_code ++ ": " ++ detail
  | PyError _ msg => msg
  end.

Inductive result (A : Type) : Type :=
| Ok (a : A)
| Raise (e : Exc).
Arguments Ok {A} a.
Arguments Raise {A} e.

(** Modelled from the spec: [SmalterDocumentType] is declared in
    [helpers/helper_smalter.py], which is not part of the sources.  The three
    members the service names are kept; any other member of the enumeration
    (resume, generic, ...) is [OTHER_DOCUMENT] with its member name. *)
Inductive SmalterDocumentType : Type :=
| CNI_FRONT
| CNI_BACK
| WORK_CONTRACT
| OTHER_DOCUMENT (member : string).

#[global] Instance SmalterDocumentType_eq_dec : EqDecision SmalterDocumentType.
Proof. solve_decision. Defined.

(** Modelled from the spec: [CniLanguage] is declared in
    [helpers/helper_smalter.py] too; the language hint is an optional
    enumerated value, a member being known by its [.value].  A member is
    truthy, [None] is not. *)
Record CniLanguage : Type := { CniLanguage_value : string }.

Definition truthy (lang : option CniLanguage) : bool :=
  match lang with Some _ => true | None => false end.

Record UploadFile : Type := { filename : string; content : bytes }.

(** A decoded image handed to the resume model. *)
Inductive Image : Type := PILImage (data : bytes).

Inductive Response : Type := JSONResponse (content : Json).

(** ** Temporary storage and the effect log *)

Inductive Node : Type :=
| Dir
| File (data : bytes).

(** [p] is the directory [d] or lies below it. *)
Definition under (d p : string) : bool :=
  (String.eqb p d || String.prefix (d ++ "/") p)%bool.

Inductive Event : Type :=
| EvReadUpload (name : string)        (* await file.read() *)
| EvMkdtemp (d : string)              (* tempfile.TemporaryDirectory() *)
| EvExtractall (d : string)           (* zip_ref.extractall(temp_dir) *)
| EvWalk (d : string)                 (* os.walk(temp_dir) *)
| EvRmtree (d : string)               (* leaving the TemporaryDirectory *)
| EvMkstemp (p : string)              (* tempfile.NamedTemporaryFile(delete=False) *)
| EvWrite (p : string)                (* tmp_file.write(file_bytes) *)
| EvRemove (p : string)               (* os.remove(tmp_path) *)
| EvOpen (p : string)                 (* open(file_path, 'rb').read() *)
| EvCreationDate (name : string)      (* get_document_creation_date_sync *)
| EvModel (p : string)                (* ocr_smalter_helper: the model call *)
| EvDecode (name : string)            (* convert_from_bytes / Image.open *)
| EvResumeModel.                      (* ocr_resume: the model call *)

#[global] Instance Event_eq_dec : EqDecision Event.
Proof. solve_decision. Defined.

Record Run (A : Type) : Type :=
  { res : result A; store : gmap string Node; log : list Event }.
Arguments res {A} r.
Arguments store {A} r.
Arguments log {A} r.

(** A computation over the temporary storage. *)
Definition M (A : Type) : Type := gmap string Node → Run A.

#[global] Instance M_ret : MRet M :=
  λ A a fs, {| res := Ok a; store := fs; log := [] |}.

#[global] Instance M_bind : MBind M :=
  λ A B k m fs,
    let r := m fs in
    match res r with
    | Ok a =>
        let r' := k a (store r) in
        {| res := res r'; store := store r'; log := log r ++ log r' |}
    | Raise e => {| res := Raise e; store := store r; log := log r |}
    end.

Definition raise {A : Type} (e : Exc) : M A :=
  λ fs, {| res := Raise e; store := fs; log := [] |}.

Definition lift {A : Type} (r : result A) : M A :=
  λ fs, {| res := r; store := fs; log := [] |}.

Definition emit (ev : Event) : M unit :=
  λ fs, {| res := Ok tt; store := fs; log := [ev] |}.

(** [try: m  except Exception as e: h e] *)
Definition try_except {A : Type} (m : M A) (h : Exc → M A) : M A :=
  λ fs,
    let r := m fs in
    match res r with
    | Ok a => r
    | Raise e =>
        let r' := h e (store r) in
        {| res := res r'; store := store r'; log := log r ++ log r' |}
    end.

(** [try: m  finally: f]; also the exit of a [with] block.  An exception of
    the [finally] part replaces the pending one. *)
Definition try_finally {A : Type} (m : M A) (f : M unit) : M A :=
  λ fs,
    let r := m fs in
    let r' := f (store r) in
    {| res := match res r' with Ok _ => res r | Raise e => Raise e end;
       store := store r';
       log := log r ++ log r' |}.

(** ** Collaborators

    The helper modules, the model and the libraries the service calls are
    black boxes: each may return or raise.  The name a temporary directory or
    file receives, and the order in which [os.walk] lists a directory, are the
    platform's choice. *)

(** What [zipfile.ZipFile(buffer)] holds once opened: the members
    [extractall] writes, each under the relative path the archive library
    derives from its name (leading separators and [..] components removed)
    and joins to the target directory, and the exception that stops the
    extraction after them, if any. *)
Record ZipArchive : Type :=
  { members : list (string * Node); extract_fault : option Exc }.

Class Helpers : Type :=
  { (* image_type.value *)
    SmalterDocumentType_value : SmalterDocumentType → string;
    (* helpers.helper_smalter *)
    get_document_creation_date_sync : string → bytes → result string;
    ocr_smalter_helper :
      string → option Node → SmalterDocumentType → option CniLanguage → result Json;
    (* helpers.helper_resume, json, pdf2image, PIL *)
    ocr_resume : Image → result string;
    clean_zip_from_resume_entry : string → result string;
    json_loads : string → result Json;
    convert_from_bytes : bytes → result (list Image);
    Image_open_convert : bytes → result Image;
    (* tempfile, zipfile, os *)
    mkdtemp : gmap string Node → string;
    mkstemp : gmap string Node → string → string;
    write_fault : string → bytes → option Exc;
    ZipFile : bytes → result ZipArchive;
    os_walk : gmap string Node → string → list (string * list string) }.

(** ** The module's namespace

    The names bound at module level once the file is loaded: the imports of
    lines 7 to 34, the three assignments and the five definitions. *)
Definition module_globals : list string :=
  [ "io"; "os"; "json"; "tempfile"; "Optional"; "asynccontextmanager";
    "FastAPI"; "File"; "Form"; "UploadFile"; "HTTPException"; "JSONResponse";
    "Image"; "convert_from_bytes";
    "AutoProcessor"; "AutoModelForImageTextToText";
    "RESUME_PROMPT"; "EILIFY_PROMPT";
    "ocr_resume"; "clean_zip_from_resume_entry"; "ocr_eilify";
    "CniLanguage"; "SmalterDocumentType"; "get_document_creation_date_sync";
    "clean_json_output"; "ocr_smalter_helper"; "run_bulk_ocr_task";
    "MODEL_PATH"; "MODEL"; "PROCESSOR"; "lifespan"; "app";
    "extract_resume_fields"; "ocr_smalter_sync"; "elify_ocr";
    "run_bulk_ocr_task_sync" ].

(** Evaluating a global name: [NameError] when the namespace does not bind
    it. *)
Definition bound (globals : list string) (name : string) : bool :=
  existsb (String.eqb name) globals.

Definition load_global (globals : list string) (name : string) : M unit :=
  if bound globals name then mret tt else raise (NameError name).

(** ** Storage operations *)

(** [await file.read()] *)
Definition file_read (file : UploadFile) : M bytes :=
  _ ← emit (EvReadUpload (filename file)); mret (content file).

(** Removing a directory with all it holds. *)
Definition rmtree (d : string) : M unit :=
  λ fs, {| res := Ok tt;
           store := filter (λ kv, under d kv.1 = false) fs;
           log := [EvRmtree d] |}.

(** [os.remove(p)] *)
Definition os_remove (p : string) : M unit :=
  λ fs, match fs !! p with
        | Some (File _) =>
            {| res := Ok tt; store := delete p fs; log := [EvRemove p] |}
        | Some Dir =>
            {| res := Raise (IsADirectoryError p); store := fs; log := [EvRemove p] |}
        | None =>
            {| res := Raise (FileNotFoundError p); store := fs; log := [EvRemove p] |}
        end.

(** [open(p, 'rb').read()] *)
Definition open_read (p : string) : M bytes :=
  λ fs, {| res := match fs !! p with
                  | Some (File b) => Ok b
                  | Some Dir => Raise (IsADirectoryError p)
                  | None => Raise (FileNotFoundError p)
                  end;
           store := fs; log := [EvOpen p] |}.

(** [os.path.join(root, name)] of [posixpath] *)
Definition os_path_join (root name : string) : string :=
  if String.prefix "/" name then name
  else if (String.eqb root "" || PyStr.endswith root "/")%bool then root ++ name
  else root ++ "/" ++ name.

Section Service.

Context `{Helpers}.
Variable globals : list string.

(** [tempfile.TemporaryDirectory()] entered *)
Definition TemporaryDirectory_enter : M string :=
  λ fs, let d := mkdtemp fs in
        {| res := Ok d; store := <[d := Dir]> fs; log := [EvMkdtemp d] |}.

(** [with tempfile.TemporaryDirectory() as temp_dir: body] *)
Definition with_TemporaryDirectory {A : Type} (body : string → M A) : M A :=
  temp_dir ← TemporaryDirectory_enter;
  try_finally (body temp_dir) (rmtree temp_dir).

(** [with tempfile.NamedTemporaryFile(delete=False, suffix=ext) as tmp_file:
    tmp_file.write(data); tmp_path = tmp_file.name]: the file is created
    empty, then written; leaving the block closes it and keeps it. *)
Definition NamedTemporaryFile_write (suffix : string) (data : bytes) : M string :=
  λ fs, let p := mkstemp fs suffix in
        match write_fault p data with
        | None =>
            {| res := Ok p; store := <[p := File data]> fs;
               log := [EvMkstemp p; EvWrite p] |}
        | Some e =>
            {| res := Raise e; store := <[p := File ""]> fs;
               log := [EvMkstemp p; EvWrite p] |}
        end.

(** [zip_ref.extractall(temp_dir)] *)
Definition extracted (z : ZipArchive) (temp_dir : string)
    (fs : gmap string Node) : gmap string Node :=
  foldl (λ acc m, <[os_path_join temp_dir m.1 := m.2]> acc) fs (members z).

Definition extractall (z : ZipArchive) (temp_dir : string) : M unit :=
  λ fs, {| res := match extract_fault z with None => Ok tt | Some e => Raise e end;
           store := extracted z temp_dir fs;
           log := [EvExtractall temp_dir] |}.

Definition call_creation_date (name : string) (data : bytes) : M string :=
  _ ← emit (EvCreationDate name);
  lift (get_document_creation_date_sync name data).

Definition call_ocr_smalter_helper (path : string)
    (image_type : SmalterDocumentType) (lang : option CniLanguage) : M Json :=
  λ fs, {| res := ocr_smalter_helper path (fs !! path) image_type lang;
           store := fs; log := [EvModel path] |}.

(** [lang.value] *)
Definition lang_value (lang : option CniLanguage) : M string :=
  match lang with
  | Some l => mret (CniLanguage_value l)
  | None => raise (AttributeError_None "value")
  end.

(** [file_extension.replace('.', '').upper() if file_extension else "UNKNOWN"] *)
Definition file_type_of (file_extension : string) : string :=
  if String.eqb file_extension "" then "UNKNOWN"
  else PyStr.upper (PyStr.remove_char "."%char file_extension).

(** [ocr_result if isinstance(ocr_result, list) else [ocr_result]] *)
Definition details_of (ocr_result : Json) : list Json :=
  match ocr_result with
  | JList items => items
  | _ => [ocr_result]
  end.

Definition is_cni_type (image_type : SmalterDocumentType) : bool :=
  bool_decide (image_type ∈ [CNI_FRONT; CNI_BACK]).

(** ** [run_bulk_ocr_task_sync] *)

Definition supported_extensions : list string :=
  [".png"; ".jpg"; ".jpeg"; ".pdf"].

(** Line 170: [filename.lower().endswith(supported_extensions)] *)
Definition supported (name : string) : bool :=
  PyStr.endswith_any (PyStr.lower name) supported_extensions.

(** The fragment appended at line 187. *)
Definition error_fragment (name : string) (e : Exc) : Json :=
  JDict [("file_metadata", JDict [("source_file", JStr name); ("error", JBool true)]);
         ("details", JList [JStr (str_exc e)])].

(** Lines 173 to 185: the body of the [try] for one supported entry. *)
Definition bulk_entry_try (image_type : SmalterDocumentType)
    (lang : option CniLanguage) (file_path name : string) : M Json :=
  file_bytes_for_meta ← open_read file_path;
  creation_date ← call_creation_date name file_bytes_for_meta;
  let file_extension := (PyStr.splitext name).2 in
  let file_type := file_type_of file_extension in
  let is_cni := is_cni_type image_type in
  ocr_result ← call_ocr_smalter_helper file_path image_type lang;
  let file_metadata :=
    [("source_file", JStr name);
     ("file_url", JStr ("/ocr/smalter/" ++ SmalterDocumentType_value image_type));
     ("file_type", JStr file_type);
     ("file_creation_date", JStr creation_date)] in
  file_metadata ←
    (if is_cni
     then v ← lang_value lang;
          mret (PyDict.set "language" (JStr v) file_metadata)
     else mret file_metadata);
  let details := details_of ocr_result in
  let final_response :=
    JDict [("file_metadata", JDict file_metadata); ("details", JList details)] in
  mret final_response.

(** Lines 171 to 187: one supported entry, under its own [try]. *)
Definition bulk_entry (image_type : SmalterDocumentType)
    (lang : option CniLanguage) (root name : string) : M Json :=
  let file_path := os_path_join root name in
  try_except (bulk_entry_try image_type lang file_path name)
             (λ e, mret (error_fragment name e)).

(** Lines 168 to 187: the files of one directory, [all_results] growing. *)
Fixpoint bulk_files (image_type : SmalterDocumentType)
    (lang : option CniLanguage) (root : string) (files : list string)
    (all_results : list Json) : M (list Json) :=
  match files with
  | [] => mret all_results
  | name :: files' =>
      if negb (supported name)
      then bulk_files image_type lang root files' all_results
      else
        fragment ← bulk_entry image_type lang root name;
        bulk_files image_type lang root files' (all_results ++ [fragment])
  end.

(** Line 167: the directories [os.walk] lists. *)
Fixpoint bulk_walk (image_type : SmalterDocumentType)
    (lang : option CniLanguage) (listing : list (string * list string))
    (all_results : list Json) : M (list Json) :=
  match listing with
  | [] => mret all_results
  | (root, files) :: listing' =>
      all_results' ← bulk_files image_type lang root files all_results;
      bulk_walk image_type lang listing' all_results'
  end.

Definition walk (temp_dir : string) : M (list (string * list string)) :=
  λ fs, {| res := Ok (os_walk fs temp_dir); store := fs; log := [EvWalk temp_dir] |}.

(** Lines 164 to 187: what runs while the scratch directory exists. *)
Definition bulk_in_temp_dir (zip_bytes : bytes)
    (image_type : SmalterDocumentType) (lang : option CniLanguage)
    (all_results : list Json) (temp_dir : string) : M (list Json) :=
  _ ← (_ ← load_global globals "io";
       _ ← load_global globals "zipfile";
       zip_ref ← lift (ZipFile zip_bytes);
       extractall zip_ref temp_dir);
  _ ← load_global globals "os";
  listing ← walk temp_dir;
  bulk_walk image_type lang listing all_results.

Definition run_bulk_ocr_task_sync (zip_bytes : bytes)
    (image_type : SmalterDocumentType) (lang : option CniLanguage)
  : M (list Json) :=
  let all_results := [] in
  _ ← load_global globals "tempfile";
  with_TemporaryDirectory (bulk_in_temp_dir zip_bytes image_type lang all_results).

(** ** [ocr_smalter_sync] *)

Definition lang_required_detail : string :=
  "The 'lang' parameter is required for CNI documents.".

Definition bulk_unsupported_detail (image_type : SmalterDocumentType) : string :=
  "Bulk processing for '" ++ SmalterDocumentType_value image_type
    ++ "' is not supported.".

Definition supported_bulk_types : list SmalterDocumentType :=
  [CNI_FRONT; CNI_BACK; WORK_CONTRACT].

(** Lines 99 to 109: the archive branch. *)
Definition bulk_branch (image_type : SmalterDocumentType)
    (file_bytes : bytes) (lang : option CniLanguage) : M Response :=
  if bool_decide (image_type ∉ supported_bulk_types)
  then raise (HTTPException 400 (bulk_unsupported_detail image_type))
  else
    try_except
      (bulk_results ← run_bulk_ocr_task_sync file_bytes image_type lang;
       mret (JSONResponse (JList bulk_results)))
      (λ e, raise (HTTPException 500 ("Bulk processing failed: " ++ str_exc e))).

(** Lines 112 to 133: the single-document branch. *)
Definition single_branch (image_type : SmalterDocumentType)
    (file : UploadFile) (file_bytes : bytes) (lang : option CniLanguage)
    (is_cni : bool) : M Response :=
  try_except
    (creation_date ← call_creation_date (filename file) file_bytes;
     let file_extension := (PyStr.splitext (filename file)).2 in
     let file_type := file_type_of file_extension in
     tmp_path ← NamedTemporaryFile_write file_extension file_bytes;
     ocr_result ←
       try_finally (call_ocr_smalter_helper tmp_path image_type lang)
                   (os_remove tmp_path);
     let file_metadata :=
       [("file_url", JStr ("/ocr/smalter/" ++ SmalterDocumentType_value image_type));
        ("file_type", JStr file_type);
        ("file_creation_date", JStr creation_date)] in
     file_metadata ←
       (if is_cni
        then v ← lang_value lang;
             mret (PyDict.set "language" (JStr v) file_metadata)
        else mret file_metadata);
     let details := details_of ocr_result in
     let final_response :=
       JDict [("file_metadata", JDict file_metadata); ("details", JList details)] in
     mret (JSONResponse final_response))
    (λ e, raise (HTTPException 500 (str_exc e))).

Definition ocr_smalter_sync (image_type : SmalterDocumentType)
    (file : UploadFile) (lang : option CniLanguage) : M Response :=
  let is_cni := is_cni_type image_type in
  if (is_cni && negb (truthy lang))%bool
  then raise (HTTPException 400 lang_required_detail)
  else
    file_bytes ← file_read file;
    if PyStr.endswith (PyStr.lower (filename file)) ".zip"
    then bulk_branch image_type file_bytes lang
    else single_branch image_type file file_bytes lang is_cni.

(** ** [extract_resume_fields] *)

Definition call_convert_from_bytes (name : string) (data : bytes) : M (list Image) :=
  _ ← emit (EvDecode name); lift (convert_from_bytes data).

Definition call_Image_open (name : string) (data : bytes) : M Image :=
  _ ← emit (EvDecode name); lift (Image_open_convert data).

Definition call_ocr_resume (image : Image) : M string :=
  _ ← emit EvResumeModel; lift (ocr_resume image).

Definition extract_resume_fields (file : UploadFile) : M Response :=
  try_except
    (content ← file_read file;
     creation_date ← call_creation_date (filename file) content;
     let file_extension := (PyStr.splitext (filename file)).2 in
     let file_type := file_type_of file_extension in
     images ←
       (if String.eqb file_type "PDF"
        then call_convert_from_bytes (filename file) content
        else if bool_decide (file_type ∈ ["PNG"; "JPG"; "JPEG"])
        then image ← call_Image_open (filename file) content; mret [image]
        else raise (HTTPException 415 ("Unsupported file type: " ++ file_type ++ ".")));
     match images with
     | [] => raise (HTTPException 422 "Could not process file into an image.")
     | image0 :: _ =>
         raw_output ← call_ocr_resume image0;
         cleaned_json_string ← lift (clean_zip_from_resume_entry raw_output);
         ocr_result ← lift (json_loads cleaned_json_string);
         let file_metadata :=
           [("file_url", JStr "/ocr/resume");
            ("file_type", JStr file_type);
            ("file_creation_date", JStr creation_date)] in
         let details := [ocr_result] in
         let final_response :=
           JDict [("file_metadata", JDict file_metadata); ("details", JList details)] in
         mret (JSONResponse final_response)
     end)
    (λ e, raise (HTTPException 500 (str_exc e))).

End Service.

(** ** A concrete set of collaborators

    Stand-ins used to run the service on explicit inputs: an archive is a
    payload starting with [PK] and holds three files, the second of them
    unreadable by the model when the payload starts with [PK!]; the model
    fails on a file whose content is [bad] and echoes every other file. *)

Module Demo.

Definition archive : ZipArchive :=
  {| members := [("a.png", File "front"); ("b.jpg", File "back");
                 ("notes.txt", File "memo")];
     extract_fault := None |}.

Definition archive_one_bad : ZipArchive :=
  {| members := [("a.png", File "front"); ("b.jpg", File "bad");
                 ("c.pdf", File "pages")];
     extract_fault := None |}.

(** Files directly below [d], in the order of the map's keys. *)
Definition listdir (fs : gmap string Node) (d : string) : list string :=
  omap (λ kv, match kv.2 with
              | File _ =>
                  if String.prefix (d ++ "/") kv.1
                  then Some (PyStr.drop (Z.of_nat (String.length d) + 1) kv.1)
                  else None
              | Dir => None
              end)
       (map_to_list fs).

Definition helpers : Helpers :=
  {| SmalterDocumentType_value t :=
       match t with
       | CNI_FRONT => "cni_front"
       | CNI_BACK => "cni_back"
       | WORK_CONTRACT => "work_contract"
       | OTHER_DOCUMENT m => m
       end;
     get_document_creation_date_sync _ _ := Ok "2024-01-01";
     ocr_smalter_helper _ node _ _ :=
       match node with
       | Some (File b) =>
           if String.eqb b "bad" then Raise (PyError "RuntimeError" "model failed")
           else Ok (JDict [("text", JStr b)])
       | _ => Raise (PyError "OSError" "cannot read")
       end;
     ocr_resume _ := Ok "{}";
     clean_zip_from_resume_entry s := Ok s;
     json_loads _ := Ok (JDict []);
     convert_from_bytes b := Ok (if String.eqb b "" then [] else [PILImage b]);
     Image_open_convert b := Ok (PILImage b);
     mkdtemp _ := "/tmp/tmpdir";
     mkstemp _ suffix := "/tmp/tmpfile" ++ suffix;
     write_fault _ _ := None;
     ZipFile b :=
       if String.prefix "PK!" b then Ok archive_one_bad
       else if String.prefix "PK" b then Ok archive
       else Raise (PyError "BadZipFile" "File is not a zip file");
     os_walk fs d := [(d, listdir fs d)] |}.

Definition fr : CniLanguage := {| CniLanguage_value := "fr" |}.

(** The module's namespace with [zipfile] imported as well. *)
Definition globals_with_zipfile : list string := "zipfile" :: module_globals.

End Demo.


(** ** Observations on fragments and logs *)

Definition fragment_metadata (f : Json) : option (list (string * Json)) :=
  match f with
  | JDict fields =>
      match PyDict.get "file_metadata" fields with
      | Some (JDict m) => Some m
      | _ => None
      end
  | _ => None
  end.

Definition fragment_details (f : Json) : option Json :=
  match f with
  | JDict fields => PyDict.get "details" fields
  | _ => None
  end.

(** A Failure fragment: its metadata carries [error: true]. *)
Definition is_failure (f : Json) : bool :=
  match fragment_metadata f with
  | Some m => match PyDict.get "error" m with Some (JBool true) => true | _ => false end
  | None => false
  end.

Definition source_file (f : Json) : option string :=
  match fragment_metadata f with
  | Some m => match PyDict.get "source_file" m with Some (JStr s) => Some s | _ => None end
  | None => None
  end.

(** Effects of processing one entry. *)
Definition entry_event (e : Event) : bool :=
  match e with
  | EvOpen _ | EvCreationDate _ | EvModel _ => true
  | _ => false
  end.

(** The only effect before the first entry is yielded. *)
Definition extract_event (e : Event) : bool :=
  match e with
  | EvExtractall _ => true
  | _ => false
  end.

(** Effects inside the scratch directory's scope. *)
Definition scope_event (e : Event) : bool :=
  match e with
  | EvExtractall _ | EvWalk _ => true
  | _ => entry_event e
  end.

(** The supported entries of a listing, in enumeration order. *)
Definition walk_entries (listing : list (string * list string)) : list (string * string) :=
  listing ≫= λ rf, (λ name, (rf.1, name)) <$> filter (λ name, supported name = true) rf.2.

(** Settling a decidable closed proposition by evaluation. *)
Ltac by_compute :=
  match goal with
  | |- ?P => apply (@bool_decide_unpack P _); vm_compute; exact I
  end.

Ltac run_unfold :=
  unfold bulk_entry_try, call_creation_date, call_ocr_smalter_helper, open_read,
    lang_value, file_read, mbind, M_bind, mret, M_ret, raise, lift, emit,
    try_except, try_finally in *.

(** The uploaded bytes cannot be expanded: opening them as an archive raises,
    or the extraction stops on a fault. *)
Definition unreadable `{Helpers} (zip_bytes : bytes) : bool :=
  match ZipFile zip_bytes with
  | Raise _ => true
  | Ok z => bool_decide (is_Some (extract_fault z))
  end.

(** The envelope of a successful single-document run, [extra] being the
    language entry or nothing. *)
Definition single_envelope `{Helpers} (it : SmalterDocumentType) (name : string)
    (creation_date : string) (extra : list (string * Json)) (ocr_result : Json) : Json :=
  JDict
    [("file_metadata",
      JDict ([("file_url", JStr ("/ocr/smalter/" ++ SmalterDocumentType_value it));
              ("file_type", JStr (file_type_of (PyStr.splitext name).2));
              ("file_creation_date", JStr creation_date)] ++ extra));
     ("details", JList (details_of ocr_result))].

(** ** Observing which way a request went *)

Inductive Mode : Type := Rejected | Bulk | Single.

(** A rejected request has no effect at all; the single-document branch asks
    for the creation date right after reading the upload; the archive branch
    never does so before it has created its scratch directory. *)
Definition observed_mode {A : Type} (r : Run A) : Mode :=
  match log r with
  | [] => Rejected
  | _ :: EvCreationDate _ :: _ => Single
  | _ => Bulk
  end.

(** Effects that can precede the first entry of an archive. *)
Definition pre_yield_event (e : Event) : bool :=
  match e with
  | EvReadUpload _ | EvMkdtemp _ | EvExtractall _ | EvRmtree _ => true
  | _ => false
  end.

(** ** [elify_ocr]

    The third endpoint, lines 136 to 154.  Its two collaborators come from
    [helpers/helper_eilify.py] and [helpers/helper_smalter.py]. *)

Class EilifyHelpers : Type :=
  { ocr_eilify : Image → result string;
    clean_json_output : string → result Json }.

Section Eilify.

Context `{Helpers} `{EilifyHelpers}.

(** [ocr_eilify(image_pil, MODEL, PROCESSOR, EILIFY_PROMPT)]: the model call,
    logged under the upload's name. *)
Definition call_ocr_eilify (name : string) (image : Image) : M string :=
  _ ← emit (EvModel name); lift (ocr_eilify image).

Definition elify_ocr (image : UploadFile) : M Response :=
  try_except
    (image_bytes ← file_read image;
     creation_date ← call_creation_date (filename image) image_bytes;
     let file_extension := (PyStr.splitext (filename image)).2 in
     let file_type := file_type_of file_extension in
     image_pil ← call_Image_open (filename image) image_bytes;
     output_text ← call_ocr_eilify (filename image) image_pil;
     ocr_result ← lift (clean_json_output output_text);
     let file_metadata :=
       [("file_url", JStr "/ocr/eilify");
        ("file_type", JStr file_type);
        ("file_creation_date", JStr creation_date)] in
     let details := [ocr_result] in
     let final_response :=
       JDict [("file_metadata", JDict file_metadata); ("details", JList details)] in
     mret (JSONResponse final_response))
    (λ e, raise (HTTPException 500 ("Error: " ++ str_exc e))).

End Eilify.

(** ** Further observations *)

(** The paths opened, and the paths handed to the model, in order. *)
Definition opened (l : list Event) : list string :=
  omap (λ e, match e with EvOpen p => Some p | _ => None end) l.

Definition model_calls (l : list Event) : list string :=
  omap (λ e, match e with EvModel p => Some p | _ => None end) l.

(** Events that touch the temporary storage. *)
Definition storage_event (e : Event) : bool :=
  match e with
  | EvMkdtemp _ | EvExtractall _ | EvRmtree _ | EvMkstemp _ | EvWrite _ | EvRemove _ => true
  | _ => false
  end.

(** [c in s] for a one-character [c] *)
Fixpoint has_char (c : ascii) (s : string) : bool :=
  match s with
  | EmptyString => false
  | String a s' => (Ascii.eqb a c || has_char c s')%bool
  end.

(** Every character of [s] is [c]. *)
Fixpoint all_char (c : ascii) (s : string) : bool :=
  match s with
  | EmptyString => true
  | String a s' => (Ascii.eqb a c && all_char c s')%bool
  end.

(** The tags the resume endpoint accepts (lines 65 and 66). *)
Definition resume_types : list string := ["PDF"; "PNG"; "JPG"; "JPEG"].

(** ** The Streamlit script [langchain/1-langchain/ollama_app.py]

    The script runs top to bottom on every interaction: it loads the
    environment file, copies two variables of the environment onto
    themselves and sets a third, draws the page and, when the text box is not
    empty, invokes the chain and writes its answer.  The environment file
    loader and the chain (prompt, model, parser) are black boxes. *)

Module OllamaApp.

Inductive Ui : Type :=
| StTitle (text : string)                       (* st.title *)
| ChainInvoke (input : list (string * string))  (* chain.invoke({...}) *)
| StWrite (text : string).                      (* st.write *)

Record ScriptRun : Type :=
  { outcome : result unit; environ : gmap string string; ui : list Ui }.

(** [os.environ[key] = value]: the value must be a string. *)
Definition environ_set (key : string) (value : option string)
    (env : gmap string string) : result (gmap string string) :=
  match value with
  | Some v => Ok (<[key := v]> env)
  | None => Raise (PyError "TypeError" "str expected, not NoneType")
  end.

(** The title, its last character in UTF-8. *)
Definition title : string := "Ollama-based GenAI App 🚀".

Section Script.

Variable load_dotenv : gmap string string → gmap string string.
Variable chain_invoke : list (string * string) → result string.

Definition script (env0 : gmap string string) (user_input : string) : ScriptRun :=
  let env := load_dotenv env0 in
  match environ_set "LANGCHAIN_API_KEY" (env !! "LANGCHAIN_API_KEY") env with
  | Raise e => {| outcome := Raise e; environ := env; ui := [] |}
  | Ok env1 =>
      let env2 := <["LANGCHAIN_TRACING_V2" := "true"]> env1 in
      match environ_set "LANGCHAIN_PROJECT" (env2 !! "LANGCHAIN_PROJECT") env2 with
      | Raise e => {| outcome := Raise e; environ := env2; ui := [] |}
      | Ok env3 =>
          let page := [StTitle title] in
          if String.eqb user_input ""
          then {| outcome := Ok tt; environ := env3; ui := page |}
          else
            let input := [("question", user_input)] in
            match chain_invoke input with
            | Ok response =>
                {| outcome := Ok tt; environ := env3;
                   ui := page ++ [ChainInvoke input; StWrite response] |}
            | Raise e =>
                {| outcome := Raise e; environ := env3;
                   ui := page ++ [ChainInvoke input] |}
            end
      end
  end.

End Script.

End OllamaApp.

(** ** The envelopes of the resume and eilify endpoints *)

(** Lines 74 to 76 and 149 to 151: the metadata has three keys and [details]
    one element. *)
Definition one_result_envelope (file_url file_type creation_date : string)
    (ocr_result : Json) : Json :=
  JDict [("file_metadata",
          JDict [("file_url", JStr file_url);
                 ("file_type", JStr file_type);
                 ("file_creation_date", JStr creation_date)]);
         ("details", JList [ocr_result])].

(** What the resume endpoint answers once it holds the image it sends to the
    model (lines 70 to 79). *)
Definition resume_outcome `{Helpers} (file_type creation_date : string)
    (image0 : Image) : result Response :=
  match ocr_resume image0 with
  | Raise e => Raise (HTTPException 500 (str_exc e))
  | Ok raw_output =>
      match clean_zip_from_resume_entry raw_output with
      | Raise e => Raise (HTTPException 500 (str_exc e))
      | Ok cleaned_json_string =>
          match json_loads cleaned_json_string with
          | Raise e => Raise (HTTPException 500 (str_exc e))
          | Ok ocr_result =>
              Ok (JSONResponse
                    (one_result_envelope "/ocr/resume" file_type creation_date ocr_result))
          end
      end
  end.

(** What the eilify endpoint answers once the image is decoded (lines 146 to
    154). *)
Definition elify_outcome `{EilifyHelpers} (file_type creation_date : string)
    (image_pil : Image) : result Response :=
  match ocr_eilify image_pil with
  | Raise e => Raise (HTTPException 500 ("Error: " ++ str_exc e))
  | Ok output_text =>
      match clean_json_output output_text with
      | Raise e => Raise (HTTPException 500 ("Error: " ++ str_exc e))
      | Ok ocr_result =>
          Ok (JSONResponse
                (one_result_envelope "/ocr/eilify" file_type creation_date ocr_result))
      end
  end.

(** Stand-ins for the eilify collaborators. *)
Definition demo_eilify : EilifyHelpers :=
  {| ocr_eilify image := match image with PILImage b => Ok b end;
     clean_json_output s := Ok (JStr s) |}.

(** A run with [l] logged before it. *)
Definition prepend {A : Type} (l : list Event) (r : Run A) : Run A :=
  {| res := res r; store := store r; log := l ++ log r |}.

(** The stand-in collaborators on a full disk: every write to a temporary
    file fails. *)
Definition demo_disk_full : Helpers :=
  {| SmalterDocumentType_value := @SmalterDocumentType_value Demo.helpers;
     get_document_creation_date_sync := @get_document_creation_date_sync Demo.helpers;
     ocr_smalter_helper := @ocr_smalter_helper Demo.helpers;
     ocr_resume := @ocr_resume Demo.helpers;
     clean_zip_from_resume_entry := @clean_zip_from_resume_entry Demo.helpers;
     json_loads := @json_loads Demo.helpers;
     convert_from_bytes := @convert_from_bytes Demo.helpers;
     Image_open_convert := @Image_open_convert Demo.helpers;
     mkdtemp := @mkdtemp Demo.helpers;
     mkstemp := @mkstemp Demo.helpers;
     write_fault _ _ := Some (PyError "OSError" "[Errno 28] No space left on device");
     ZipFile := @ZipFile Demo.helpers;
     os_walk := @os_walk Demo.helpers |}.

(** Events of the single-document branch only, and of the archive branch
    only. *)
Definition single_only_event (e : Event) : bool :=
  match e with
  | EvMkstemp _ | EvWrite _ | EvRemove _ => true
  | _ => false
  end.

Definition bulk_only_event (e : Event) : bool :=
  match e with
  | EvMkdtemp _ | EvExtractall _ | EvWalk _ | EvRmtree _ | EvOpen _ => true
  | _ => false
  end.

(** A string of ASCII characters only.  Strings stand for the UTF-8 bytes of
    a Python [str]; on the ASCII ones [PyStr.lower] and [PyStr.upper] are
    [str.lower] and [str.upper]. *)
Fixpoint is_ascii (s : string) : bool :=
  match s with
  | EmptyString => true
  | String c s' => ((nat_of_ascii c <? 128)%nat && is_ascii s')%bool
  end.

(** The stand-in collaborators with a converter that finds two pages in
    every PDF. *)
Definition demo_two_pages : Helpers :=
  {| SmalterDocumentType_value := @SmalterDocumentType_value Demo.helpers;
     get_document_creation_date_sync := @get_document_creation_date_sync Demo.helpers;
     ocr_smalter_helper := @ocr_smalter_helper Demo.helpers;
     ocr_resume image := match image with PILImage b => Ok b end;
     clean_zip_from_resume_entry := @clean_zip_from_resume_entry Demo.helpers;
     json_loads s := Ok (JStr s);
     convert_from_bytes b := Ok [PILImage (b ++ " page 1"); PILImage (b ++ " page 2")];
     Image_open_convert := @Image_open_convert Demo.helpers;
     mkdtemp := @mkdtemp Demo.helpers;
     mkstemp := @mkstemp Demo.helpers;
     write_fault := @write_fault Demo.helpers;
     ZipFile := @ZipFile Demo.helpers;
     os_walk := @os_walk Demo.helpers |}.

(** * Properties *)

(** ** The string helpers on examples *)

Example lower_zip : PyStr.lower "Scan.ZIP" = "scan.zip".
Proof. reflexivity. Qed.

Example splitext_plain : PyStr.splitext "notes.txt" = ("notes", ".txt").
Proof. reflexivity. Qed.

Example splitext_hidden : PyStr.splitext ".bashrc" = (".bashrc", "").
Proof. reflexivity. Qed.

Example splitext_dir : PyStr.splitext "a.b/c" = ("a.b/c", "").
Proof. reflexivity. Qed.

Example splitext_two : PyStr.splitext "x.tar.gz" = ("x.tar", ".gz").
Proof. reflexivity. Qed.

Example endswith_zip : PyStr.endswith "scan.zip" ".zip" = true.
Proof. reflexivity. Qed.

Example endswith_short : PyStr.endswith "zip" ".zip" = false.
Proof. reflexivity. Qed.

Example of_Z_500 : PyStr.of_Z 500 = "500".
Proof. reflexivity. Qed.

(** ** Running computations: equations of the monad *)

Section Runs.

Context {A B : Type}.

Lemma run_ret (a : A) fs :
  (mret a : M A) fs = {| res := Ok a; store := fs; log := [] |}.
Proof. reflexivity. Qed.

Lemma run_raise (e : Exc) fs :
  (raise e : M A) fs = {| res := Raise e; store := fs; log := [] |}.
Proof. reflexivity. Qed.

Lemma run_bind_ok (m : M A) (k : A → M B) fs a :
  res (m fs) = Ok a →
  (m ≫= k) fs =
    {| res := res (k a (store (m fs)));
       store := store (k a (store (m fs)));
       log := log (m fs) ++ log (k a (store (m fs))) |}.
Proof. intros E. unfold mbind, M_bind. simpl. rewrite E. reflexivity. Qed.

Lemma run_bind_raise (m : M A) (k : A → M B) fs e :
  res (m fs) = Raise e →
  (m ≫= k) fs = {| res := Raise e; store := store (m fs); log := log (m fs) |}.
Proof. intros E. unfold mbind, M_bind. simpl. rewrite E. reflexivity. Qed.

Lemma run_try_except_ok (m : M A) (h : Exc → M A) fs a :
  res (m fs) = Ok a → try_except m h fs = m fs.
Proof. intros E. unfold try_except. simpl. rewrite E. reflexivity. Qed.

Lemma run_try_except_raise (m : M A) (h : Exc → M A) fs e :
  res (m fs) = Raise e →
  try_except m h fs =
    {| res := res (h e (store (m fs)));
       store := store (h e (store (m fs)));
       log := log (m fs) ++ log (h e (store (m fs))) |}.
Proof. intros E. unfold try_except. simpl. rewrite E. reflexivity. Qed.

End Runs.

(** A handler that re-raises as a server error leaves storage and log as the
    body left them, and turns every exception into a status 500. *)
Lemma try_except_reraise {A : Type} (m : M A) (detail : Exc → string) fs :
  let r := try_except m (λ e, raise (HTTPException 500 (detail e))) fs in
  store r = store (m fs) ∧ log r = log (m fs) ∧
  res r = match res (m fs) with
          | Ok a => Ok a
          | Raise e => Raise (HTTPException 500 (detail e))
          end.
Proof.
  unfold try_except. simpl. destruct (res (m fs)) eqn:E; simpl.
  - rewrite E. auto.
  - rewrite app_nil_r. auto.
Qed.

(** ** The bulk processor *)

Section BulkFacts.

Context `{Helpers}.

Lemma bulk_entry_try_frame it lang path name fs :
  store (bulk_entry_try it lang path name fs) = fs ∧
  Forall (λ e, entry_event e = true) (log (bulk_entry_try it lang path name fs)).
Proof.
  run_unfold; simpl.
  destruct (fs !! path) as [[|b]|]; simpl; auto.
  destruct (get_document_creation_date_sync name b); simpl; auto.
  destruct (ocr_smalter_helper path (Some (File b)) it lang); simpl; auto.
  destruct (is_cni_type it); simpl; auto.
  destruct lang; simpl; repeat constructor.
Qed.

(** A supported entry always yields exactly one fragment, whatever its
    processing does, and leaves the storage as it was. *)
Lemma bulk_entry_run it lang root name fs :
  let r := bulk_entry it lang root name fs in
  store r = fs ∧
  Forall (λ e, entry_event e = true) (log r) ∧
  res r = Ok (match res (bulk_entry_try it lang (os_path_join root name) name fs) with
              | Ok f => f
              | Raise e => error_fragment name e
              end).
Proof.
  destruct (bulk_entry_try_frame it lang (os_path_join root name) name fs) as [Hs Hl].
  unfold bulk_entry, try_except; simpl.
  destruct (res (bulk_entry_try it lang (os_path_join root name) name fs)) eqn:E; simpl.
  - rewrite E. auto.
  - rewrite app_nil_r. auto.
Qed.

(** What a fragment of a successful entry is made of. *)
Lemma bulk_entry_try_ok it lang path name fs f :
  res (bulk_entry_try it lang path name fs) = Ok f →
  ∃ b creation_date ocr_result extra,
    fs !! path = Some (File b) ∧
    get_document_creation_date_sync name b = Ok creation_date ∧
    ocr_smalter_helper path (fs !! path) it lang = Ok ocr_result ∧
    (if is_cni_type it
     then ∃ l, lang = Some l ∧ extra = [("language", JStr (CniLanguage_value l))]
     else extra = []) ∧
    f = JDict
          [("file_metadata",
            JDict ([("source_file", JStr name);
                    ("file_url", JStr ("/ocr/smalter/" ++ SmalterDocumentType_value it));
                    ("file_type", JStr (file_type_of (PyStr.splitext name).2));
                    ("file_creation_date", JStr creation_date)] ++ extra));
           ("details", JList (details_of ocr_result))].
Proof.
  run_unfold; simpl.
  destruct (fs !! path) as [[|b]|] eqn:Ep; simpl; try discriminate.
  destruct (get_document_creation_date_sync name b) as [cd|] eqn:Ec; simpl;
    try discriminate.
  destruct (ocr_smalter_helper path (Some (File b)) it lang) as [o|] eqn:Eo; simpl;
    try discriminate.
  destruct (is_cni_type it) eqn:Ei; simpl.
  - destruct lang as [l|]; simpl; try discriminate.
    intros [= <-]. exists b, cd, o, [("language", JStr (CniLanguage_value l))].
    split_and!; eauto.
  - intros [= <-]. exists b, cd, o, []. split_and!; eauto.
Qed.

Lemma bulk_files_spec it lang root files acc fs :
  let r := bulk_files it lang root files acc fs in
  store r = fs ∧
  Forall (λ e, entry_event e = true) (log r) ∧
  ∃ frs, res r = Ok (acc ++ frs)%list ∧
         Forall2 (λ name f, res (bulk_entry it lang root name fs) = Ok f)
                 (filter (λ name, supported name = true) files) frs.
Proof.
  revert acc. induction files as [|name files IH]; intros acc; simpl.
  - split_and!; auto. exists []. rewrite app_nil_r. split; [reflexivity|constructor].
  - destruct (supported name) eqn:Es; simpl.
    + destruct (bulk_entry_run it lang root name fs) as (Hs & Hl & Hr).
      erewrite run_bind_ok by exact Hr. simpl. rewrite Hs.
      set (f0 := match res (bulk_entry_try it lang (os_path_join root name) name fs) with
                 | Ok f => f | Raise e => error_fragment name e end) in *.
      destruct (IH (acc ++ [f0])%list) as (IHs & IHl & frs & IHr & IHf).
      split_and!; auto.
      * apply Forall_app; auto.
      * eexists (_ :: frs). rewrite IHr, <- app_assoc. split; [reflexivity|].
        rewrite filter_cons_True by exact Es. constructor; auto.
    + destruct (IH acc) as (IHs & IHl & frs & IHr & IHf).
      split_and!; auto. exists frs. split; auto.
      rewrite filter_cons_False; auto. rewrite Es. discriminate.
Qed.

Lemma bulk_walk_spec it lang listing acc fs :
  let r := bulk_walk it lang listing acc fs in
  store r = fs ∧
  Forall (λ e, entry_event e = true) (log r) ∧
  ∃ frs, res r = Ok (acc ++ frs)%list ∧
         Forall2 (λ rn f, res (bulk_entry it lang rn.1 rn.2 fs) = Ok f)
                 (walk_entries listing) frs.
Proof.
  revert acc. induction listing as [|[root files] listing IH]; intros acc; simpl.
  - split_and!; auto. exists []. rewrite app_nil_r. split; [reflexivity|constructor].
  - destruct (bulk_files_spec it lang root files acc fs) as (Hs & Hl & frs & Hr & Hf).
    erewrite run_bind_ok by exact Hr. simpl. rewrite Hs.
    destruct (IH (acc ++ frs)%list) as (IHs & IHl & frs' & IHr & IHf).
    split_and!; auto.
    + apply Forall_app; auto.
    + exists (frs ++ frs')%list. rewrite IHr, <- app_assoc. split; [reflexivity|].
      unfold walk_entries in *. simpl. apply Forall2_app; auto.
      apply Forall2_fmap_l. exact Hf.
Qed.

Lemma with_TemporaryDirectory_run {A : Type} (body : string → M A) fs :
  let d := mkdtemp fs in
  let rb := body d (<[d := Dir]> fs) in
  with_TemporaryDirectory body fs =
    {| res := res rb;
       store := filter (λ kv, under d kv.1 = false) (store rb);
       log := EvMkdtemp d :: log rb ++ [EvRmtree d] |}.
Proof.
  unfold with_TemporaryDirectory, TemporaryDirectory_enter, try_finally, rmtree,
    mbind, M_bind. simpl. reflexivity.
Qed.

Lemma rmtree_clears (d p : string) (fs : gmap string Node) :
  under d p = true →
  filter (λ kv : string * Node, under d kv.1 = false) fs !! p = None.
Proof.
  intros Hu. apply map_lookup_filter_None. right. intros x _. simpl.
  rewrite Hu. discriminate.
Qed.

Lemma rmtree_frame (d p : string) (fs : gmap string Node) :
  under d p = false →
  filter (λ kv : string * Node, under d kv.1 = false) fs !! p = fs !! p.
Proof.
  intros Hu. destruct (fs !! p) as [x|] eqn:E.
  - apply map_lookup_filter_Some. auto.
  - apply map_lookup_filter_None. auto.
Qed.

Lemma entry_is_scope_event (l : list Event) :
  Forall (λ e, entry_event e = true) l → Forall (λ e, scope_event e = true) l.
Proof.
  intros Hl. eapply Forall_impl; [exact Hl|].
  intros e He. destruct e; simpl in *; auto.
Qed.

Lemma bulk_in_temp_dir_log g zip_bytes it lang acc d fs :
  Forall (λ e, scope_event e = true) (log (bulk_in_temp_dir g zip_bytes it lang acc d fs)).
Proof.
  unfold bulk_in_temp_dir, load_global, extractall, walk.
  destruct (bound g "io"); [|run_unfold; simpl; constructor].
  destruct (bound g "zipfile"); [|run_unfold; simpl; constructor].
  destruct (ZipFile zip_bytes) as [z|e] eqn:Ez; [|run_unfold; simpl; constructor].
  destruct (extract_fault z) as [e|] eqn:Ef;
    [run_unfold; simpl; rewrite Ef; simpl; repeat constructor|].
  destruct (bound g "os");
    [|run_unfold; simpl; rewrite Ef; simpl; repeat constructor].
  run_unfold; simpl. rewrite Ef; simpl.
  destruct (bulk_walk_spec it lang (os_walk (extracted z d fs) d) acc (extracted z d fs))
    as (_ & Hl & _).
  repeat constructor. apply entry_is_scope_event, Hl.
Qed.

(** Nothing is yielded from an archive that cannot be expanded. *)
Lemma bulk_in_temp_dir_unreadable g zip_bytes it lang acc d fs :
  bound g "zipfile" = false ∨ unreadable zip_bytes = true →
  let r := bulk_in_temp_dir g zip_bytes it lang acc d fs in
  (∃ e, res r = Raise e) ∧ Forall (λ e, extract_event e = true) (log r).
Proof.
  intros Hbad. unfold bulk_in_temp_dir, load_global, extractall, unreadable in *.
  destruct (bound g "io"); [|run_unfold; simpl; split; [eauto|constructor]].
  destruct (bound g "zipfile"); [|run_unfold; simpl; split; [eauto|constructor]].
  destruct Hbad as [Hbad|Hbad]; [discriminate|].
  destruct (ZipFile zip_bytes) as [z|e] eqn:Ez;
    [|run_unfold; simpl; split; [eauto|constructor]].
  apply bool_decide_eq_true in Hbad. destruct Hbad as [e Ef].
  run_unfold; simpl. rewrite Ef; simpl. split; [eauto|repeat constructor].
Qed.

(** With every name bound and a readable archive, one fragment per supported
    entry of the listing, in its order. *)
Lemma bulk_in_temp_dir_ok g zip_bytes it lang acc d fs z :
  bound g "io" = true → bound g "zipfile" = true → bound g "os" = true →
  ZipFile zip_bytes = Ok z → extract_fault z = None →
  let fs' := extracted z d fs in
  let r := bulk_in_temp_dir g zip_bytes it lang acc d fs in
  store r = fs' ∧
  ∃ frs, res r = Ok (acc ++ frs)%list ∧
         Forall2 (λ rn f, res (bulk_entry it lang rn.1 rn.2 fs') = Ok f)
                 (walk_entries (os_walk fs' d)) frs.
Proof.
  intros Hio Hzip Hos Ez Ef. unfold bulk_in_temp_dir, load_global, extractall, walk.
  rewrite Hio, Hzip, Hos, Ez. run_unfold; simpl. rewrite Ef; simpl.
  destruct (bulk_walk_spec it lang (os_walk (extracted z d fs) d) acc (extracted z d fs))
    as (Hs & _ & frs & Hr & Hf).
  simpl in Hr, Hs. rewrite Hr. simpl. split; [exact Hs|]. eauto.
Qed.

(** The module as it is loaded binds [tempfile], [io] and [os], not
    [zipfile]. *)
Lemma module_globals_bound :
  bound module_globals "tempfile" = true ∧ bound module_globals "io" = true ∧
  bound module_globals "os" = true ∧ bound module_globals "zipfile" = false.
Proof. repeat split; vm_compute; reflexivity. Qed.

Lemma run_bulk_zipfile_unbound g zip_bytes it lang fs :
  bound g "tempfile" = true → bound g "io" = true → bound g "zipfile" = false →
  let d := mkdtemp fs in
  run_bulk_ocr_task_sync g zip_bytes it lang fs =
    {| res := Raise (NameError "zipfile");
       store := filter (λ kv, under d kv.1 = false) (<[d := Dir]> fs);
       log := [EvMkdtemp d; EvRmtree d] |}.
Proof.
  intros Ht Hio Hzip. unfold run_bulk_ocr_task_sync, load_global. rewrite Ht.
  erewrite run_bind_ok by reflexivity. cbn [res store log mret M_ret app].
  rewrite with_TemporaryDirectory_run. cbn [res store log].
  unfold bulk_in_temp_dir, load_global. rewrite Hio, Hzip.
  run_unfold; simpl. reflexivity.
Qed.

(** The two shapes of a run of the bulk processor. *)
Lemma run_bulk_run g zip_bytes it lang fs :
  let d := mkdtemp fs in
  let rb := bulk_in_temp_dir g zip_bytes it lang [] d (<[d := Dir]> fs) in
  run_bulk_ocr_task_sync g zip_bytes it lang fs =
    if bound g "tempfile"
    then {| res := res rb;
            store := filter (λ kv, under d kv.1 = false) (store rb);
            log := EvMkdtemp d :: log rb ++ [EvRmtree d] |}
    else {| res := Raise (NameError "tempfile"); store := fs; log := [] |}.
Proof.
  unfold run_bulk_ocr_task_sync, load_global.
  destruct (bound g "tempfile").
  - erewrite run_bind_ok by reflexivity. cbn [res store log mret M_ret app].
    rewrite with_TemporaryDirectory_run. reflexivity.
  - reflexivity.
Qed.

(** Whatever happens inside, the scratch directory and all it holds are
    gone when the bulk processor returns or raises. *)
Lemma run_bulk_cleanup g zip_bytes it lang fs d p :
  let r := run_bulk_ocr_task_sync g zip_bytes it lang fs in
  EvMkdtemp d ∈ log r → under d p = true → store r !! p = None.
Proof.
  simpl. rewrite run_bulk_run. destruct (bound g "tempfile"); simpl.
  - intros Hin Hu.
    assert (d = mkdtemp fs) as ->.
    { apply elem_of_cons in Hin as [[= ->]|Hin]; [reflexivity|].
      apply elem_of_app in Hin as [Hin|Hin].
      - pose proof (bulk_in_temp_dir_log g zip_bytes it lang [] (mkdtemp fs)
                      (<[mkdtemp fs := Dir]> fs)) as Hl.
        rewrite Forall_forall in Hl. apply Hl in Hin. discriminate.
      - apply list_elem_of_singleton in Hin. discriminate. }
    apply rmtree_clears, Hu.
  - intros Hin. apply elem_of_nil in Hin. contradiction.
Qed.

End BulkFacts.

(** ** The endpoint, branch by branch *)

Section EndpointFacts.

Context `{Helpers}.

Lemma ocr_smalter_sync_run g it file lang fs :
  ocr_smalter_sync g it file lang fs =
    if (is_cni_type it && negb (truthy lang))%bool
    then {| res := Raise (HTTPException 400 lang_required_detail);
            store := fs; log := [] |}
    else
      let rb :=
        (if PyStr.endswith (PyStr.lower (filename file)) ".zip"
         then bulk_branch g it (content file) lang
         else single_branch it file (content file) lang (is_cni_type it)) fs in
      {| res := res rb; store := store rb;
         log := EvReadUpload (filename file) :: log rb |}.
Proof.
  unfold ocr_smalter_sync.
  destruct (is_cni_type it && negb (truthy lang))%bool; [reflexivity|].
  erewrite run_bind_ok by reflexivity. reflexivity.
Qed.

Lemma bulk_branch_run g it file_bytes lang fs :
  bulk_branch g it file_bytes lang fs =
    if bool_decide (it ∉ supported_bulk_types)
    then {| res := Raise (HTTPException 400 (bulk_unsupported_detail it));
            store := fs; log := [] |}
    else
      let b := run_bulk_ocr_task_sync g file_bytes it lang fs in
      {| res := match res b with
                | Ok l => Ok (JSONResponse (JList l))
                | Raise e =>
                    Raise (HTTPException 500 ("Bulk processing failed: " ++ str_exc e))
                end;
         store := store b; log := log b |}.
Proof.
  unfold bulk_branch. destruct (bool_decide (it ∉ supported_bulk_types)); [reflexivity|].
  unfold try_except, mbind, M_bind. simpl.
  destruct (res (run_bulk_ocr_task_sync g file_bytes it lang fs)) eqn:E; simpl.
  - rewrite app_nil_r. reflexivity.
  - rewrite ?app_nil_r. reflexivity.
Qed.

Lemma single_branch_run it file file_bytes lang is_cni fs :
  let name := filename file in
  let ext := (PyStr.splitext name).2 in
  let p := mkstemp fs ext in
  single_branch it file file_bytes lang is_cni fs =
    match get_document_creation_date_sync name file_bytes with
    | Raise e =>
        {| res := Raise (HTTPException 500 (str_exc e)); store := fs;
           log := [EvCreationDate name] |}
    | Ok creation_date =>
        match write_fault p file_bytes with
        | Some e =>
            {| res := Raise (HTTPException 500 (str_exc e));
               store := <[p := File ""]> fs;
               log := [EvCreationDate name; EvMkstemp p; EvWrite p] |}
        | None =>
            {| res :=
                 match ocr_smalter_helper p (Some (File file_bytes)) it lang with
                 | Raise e => Raise (HTTPException 500 (str_exc e))
                 | Ok ocr_result =>
                     if is_cni
                     then match lang with
                          | Some l =>
                              Ok (JSONResponse
                                    (single_envelope it name creation_date
                                       [("language", JStr (CniLanguage_value l))]
                                       ocr_result))
                          | None =>
                              Raise (HTTPException 500
                                       (str_exc (AttributeError_None "value")))
                          end
                     else Ok (JSONResponse
                                (single_envelope it name creation_date [] ocr_result))
                 end;
               store := delete p (<[p := File file_bytes]> fs);
               log := [EvCreationDate name; EvMkstemp p; EvWrite p;
                       EvModel p; EvRemove p] |}
        end
    end.
Proof.
  simpl. unfold single_branch, NamedTemporaryFile_write, os_remove.
  run_unfold. simpl.
  destruct (get_document_creation_date_sync (filename file) file_bytes) as [cd|e];
    simpl; [|reflexivity].
  destruct (write_fault _ file_bytes) as [e|]; simpl; [reflexivity|].
  rewrite !lookup_insert_eq. simpl.
  destruct (ocr_smalter_helper _ (Some (File file_bytes)) it lang) as [o|e];
    simpl; [|reflexivity].
  destruct is_cni; simpl; [|reflexivity].
  destruct lang as [l|]; simpl; reflexivity.
Qed.

End EndpointFacts.

(** ** The claims *)

Section Claims.

Context `{Helpers}.

Lemma run_bulk_log g zip_bytes it lang fs :
  Forall (λ e, match e with
               | EvMkdtemp _ | EvRmtree _ => true
               | _ => scope_event e
               end = true)
         (log (run_bulk_ocr_task_sync g zip_bytes it lang fs)).
Proof.
  rewrite run_bulk_run. destruct (bound g "tempfile"); simpl; [|constructor].
  constructor; [reflexivity|]. apply Forall_app. split.
  - eapply Forall_impl; [apply bulk_in_temp_dir_log|].
    intros e He. destruct e; simpl in *; auto.
  - repeat constructor.
Qed.

Lemma run_bulk_unreadable g zip_bytes it lang fs :
  bound g "zipfile" = false ∨ unreadable zip_bytes = true →
  let r := run_bulk_ocr_task_sync g zip_bytes it lang fs in
  (∃ e, res r = Raise e) ∧ Forall (λ e, pre_yield_event e = true) (log r).
Proof.
  intros Hbad. simpl. rewrite run_bulk_run.
  destruct (bound g "tempfile"); simpl; [|split; [eauto|constructor]].
  destruct (bulk_in_temp_dir_unreadable g zip_bytes it lang [] (mkdtemp fs)
              (<[mkdtemp fs := Dir]> fs) Hbad) as [He Hl].
  split; [exact He|]. constructor; [reflexivity|]. apply Forall_app. split.
  - eapply Forall_impl; [exact Hl|]. intros e Hx. destruct e; simpl in *; auto.
  - repeat constructor.
Qed.

Lemma not_cni_outside_bulk_types it :
  it ∉ supported_bulk_types → is_cni_type it = false.
Proof.
  intros Hn. unfold is_cni_type. apply bool_decide_eq_false. intros Hin.
  apply Hn. unfold supported_bulk_types.
  rewrite !elem_of_cons in Hin. rewrite !elem_of_cons. tauto.
Qed.

(** C4 — Language-hint validation: the request is refused with status 400
    and the detail on the missing [lang] exactly when the selector is
    CNI_FRONT or CNI_BACK and no language hint is supplied; that refusal
    comes before any effect (the upload is not read, no temporary file is
    created, the model is not called, the storage is untouched); for any
    other selector a missing hint never produces it. *)
Theorem lang_hint_validation g it file lang fs :
  let r := ocr_smalter_sync g it file lang fs in
  (res r = Raise (HTTPException 400 lang_required_detail)
     ↔ it ∈ [CNI_FRONT; CNI_BACK] ∧ lang = None) ∧
  (it ∈ [CNI_FRONT; CNI_BACK] → lang = None → log r = [] ∧ store r = fs) ∧
  (it ∉ [CNI_FRONT; CNI_BACK] →
     res (ocr_smalter_sync g it file None fs)
       ≠ Raise (HTTPException 400 lang_required_detail)).
Proof.
  assert (Hpass : ∀ lang', (is_cni_type it && negb (truthy lang'))%bool = false →
            res (ocr_smalter_sync g it file lang' fs)
              ≠ Raise (HTTPException 400 lang_required_detail)).
  { intros lang' Hv. rewrite ocr_smalter_sync_run, Hv. simpl.
    destruct (PyStr.endswith (PyStr.lower (filename file)) ".zip").
    - rewrite bulk_branch_run.
      destruct (bool_decide (it ∉ supported_bulk_types)); simpl.
      + unfold bulk_unsupported_detail, lang_required_detail. simpl. discriminate.
      + destruct (res (run_bulk_ocr_task_sync g (content file) it lang' fs));
          discriminate.
    - rewrite single_branch_run. simpl.
      destruct (get_document_creation_date_sync _ _); simpl; [|discriminate].
      destruct (write_fault _ _); simpl; [discriminate|].
      destruct (ocr_smalter_helper _ _ _ _); simpl; [|discriminate].
      destruct (is_cni_type it); [destruct lang'|]; discriminate. }
  simpl. split_and!.
  - split.
    + intros Hr. destruct (is_cni_type it && negb (truthy lang))%bool eqn:Hv.
      * apply andb_true_iff in Hv as [Hc Hl]. split.
        -- unfold is_cni_type in Hc. apply bool_decide_eq_true in Hc. exact Hc.
        -- destruct lang; [discriminate|reflexivity].
      * exfalso. exact (Hpass lang Hv Hr).
    + intros [Hc ->]. rewrite ocr_smalter_sync_run. unfold is_cni_type.
      rewrite bool_decide_eq_true_2 by exact Hc. reflexivity.
  - intros Hc ->. rewrite ocr_smalter_sync_run. unfold is_cni_type.
    rewrite bool_decide_eq_true_2 by exact Hc. simpl. auto.
  - intros Hn. apply Hpass. unfold is_cni_type.
    rewrite bool_decide_eq_false_2 by exact Hn. reflexivity.
Qed.

(** C5 — Bulk-eligibility validation: for an upload named [*.zip], a
    selector outside {CNI_FRONT, CNI_BACK, WORK_CONTRACT} is refused with
    status 400 once the upload has been read and before anything else
    happens (no scratch directory, no extraction, no entry); for a selector
    of that set, a request that reaches the dispatcher runs the bulk
    processor and answers with its outcome. *)
Theorem bulk_eligibility g it file lang fs :
  PyStr.endswith (PyStr.lower (filename file)) ".zip" = true →
  let r := ocr_smalter_sync g it file lang fs in
  let b := run_bulk_ocr_task_sync g (content file) it lang fs in
  (it ∉ supported_bulk_types →
     res r = Raise (HTTPException 400 (bulk_unsupported_detail it)) ∧
     log r = [EvReadUpload (filename file)] ∧ store r = fs) ∧
  (it ∈ supported_bulk_types →
   (is_cni_type it && negb (truthy lang))%bool = false →
     log r = EvReadUpload (filename file) :: log b ∧ store r = store b ∧
     res r = match res b with
             | Ok l => Ok (JSONResponse (JList l))
             | Raise e =>
                 Raise (HTTPException 500 ("Bulk processing failed: " ++ str_exc e))
             end).
Proof.
  intros Hz. simpl. split.
  - intros Hn. rewrite ocr_smalter_sync_run, (not_cni_outside_bulk_types it Hn), Hz.
    simpl. rewrite bulk_branch_run. rewrite bool_decide_eq_true_2 by exact Hn.
    simpl. auto.
  - intros Hin Hv. rewrite ocr_smalter_sync_run, Hv, Hz. simpl.
    rewrite bulk_branch_run. rewrite bool_decide_eq_false_2 by (intros Hn; exact (Hn Hin)).
    simpl. auto.
Qed.

(** The way a request goes as the log shows it: a function of the selector
    check and of the upload's name. *)
Lemma observed_mode_by_name g it file lang fs :
  let r := ocr_smalter_sync g it file lang fs in
  observed_mode r =
    (if (is_cni_type it && negb (truthy lang))%bool then Rejected
     else if PyStr.endswith (PyStr.lower (filename file)) ".zip" then Bulk
     else Single) ∧
  ∀ other : bytes,
    observed_mode
      (ocr_smalter_sync g it {| filename := filename file; content := other |} lang fs)
    = observed_mode r.
Proof.
  assert (Hm : ∀ f, observed_mode (ocr_smalter_sync g it f lang fs) =
    (if (is_cni_type it && negb (truthy lang))%bool then Rejected
     else if PyStr.endswith (PyStr.lower (filename f)) ".zip" then Bulk
     else Single)).
  { intros f. rewrite ocr_smalter_sync_run.
    destruct (is_cni_type it && negb (truthy lang))%bool; [reflexivity|].
    destruct (PyStr.endswith (PyStr.lower (filename f)) ".zip"); simpl.
    - rewrite bulk_branch_run.
      destruct (bool_decide (it ∉ supported_bulk_types)); [reflexivity|].
      simpl. rewrite run_bulk_run. destruct (bound g "tempfile"); reflexivity.
    - rewrite single_branch_run. simpl.
      destruct (get_document_creation_date_sync _ _); [|reflexivity].
      destruct (write_fault _ _); reflexivity. }
  simpl. split; [apply Hm|]. intros other. rewrite !Hm. reflexivity.
Qed.

Lemma bulk_branch_log g it file_bytes lang fs :
  Forall (λ e, single_only_event e = false) (log (bulk_branch g it file_bytes lang fs)).
Proof.
  rewrite bulk_branch_run.
  destruct (bool_decide (it ∉ supported_bulk_types)); cbn [log]; [constructor|].
  eapply Forall_impl; [apply run_bulk_log|].
  intros e He. destruct e; simpl in *; congruence.
Qed.

(** C10 — Implicit mode dispatch: once past the language check, a request
    whose lowercased upload name ends with [.zip] is, whatever its bytes,
    the archive branch run on those bytes: it performs no step of the
    single-document branch and, for an eligible selector, creates the scratch
    directory of the bulk processor right after reading the upload; a request
    with any other name is, whatever its bytes (archive bytes included), the
    single-document branch run on those bytes: it asks for the creation date
    right after reading the upload and performs no step of the archive
    branch. *)
Theorem mode_dispatch g it file lang fs :
  let r := ocr_smalter_sync g it file lang fs in
  let name := filename file in
  let passes := (is_cni_type it && negb (truthy lang))%bool = false in
  (passes → PyStr.endswith (PyStr.lower name) ".zip" = true →
     (∀ other : bytes,
         ocr_smalter_sync g it {| filename := name; content := other |} lang fs
         = prepend [EvReadUpload name] (bulk_branch g it other lang fs)) ∧
     Forall (λ e, single_only_event e = false) (log r) ∧
     (it ∈ supported_bulk_types → bound g "tempfile" = true →
        ∃ rest, log r = EvReadUpload name :: EvMkdtemp (mkdtemp fs) :: rest)) ∧
  (passes → PyStr.endswith (PyStr.lower name) ".zip" = false →
     (∀ other : bytes,
         ocr_smalter_sync g it {| filename := name; content := other |} lang fs
         = prepend [EvReadUpload name]
             (single_branch it {| filename := name; content := other |} other lang
                (is_cni_type it) fs)) ∧
     Forall (λ e, bulk_only_event e = false) (log r) ∧
     ∃ rest, log r = EvReadUpload name :: EvCreationDate name :: rest).
Proof.
  cbv zeta. split.
  - intros Hv Hz. split_and!.
    + intros other. rewrite ocr_smalter_sync_run. cbn [filename content].
      rewrite Hv, Hz. reflexivity.
    + rewrite ocr_smalter_sync_run, Hv, Hz. cbn [log].
      constructor; [reflexivity|]. apply bulk_branch_log.
    + intros Hin Ht. rewrite ocr_smalter_sync_run, Hv, Hz. cbn [log].
      rewrite bulk_branch_run.
      rewrite bool_decide_eq_false_2 by (intros Hn; exact (Hn Hin)).
      cbn [log]. rewrite run_bulk_run, Ht. cbn [log]. eauto.
  - intros Hv Hz. split_and!.
    + intros other. rewrite ocr_smalter_sync_run. cbn [filename content].
      rewrite Hv, Hz. reflexivity.
    + rewrite ocr_smalter_sync_run, Hv, Hz. cbn [log].
      constructor; [reflexivity|]. rewrite single_branch_run. cbv zeta.
      destruct (get_document_creation_date_sync _ _); cbn [log];
        [|repeat constructor].
      destruct (write_fault _ _); cbn [log]; repeat constructor.
    + rewrite ocr_smalter_sync_run, Hv, Hz. cbn [log].
      rewrite single_branch_run. cbv zeta.
      destruct (get_document_creation_date_sync _ _); cbn [log]; [|eauto].
      destruct (write_fault _ _); cbn [log]; eauto.
Qed.

(** C7 — Malformed-archive fast failure: when the bytes uploaded under a
    [*.zip] name cannot be expanded, the request ends in an HTTP error (the
    400 of a refused selector or hint, otherwise 500), no response body with
    fragments is produced, and nothing was listed, opened, dated or sent to
    the model. *)
Theorem malformed_archive_fails_fast g it file lang fs :
  PyStr.endswith (PyStr.lower (filename file)) ".zip" = true →
  unreadable (content file) = true →
  let r := ocr_smalter_sync g it file lang fs in
  (∃ status detail,
      res r = Raise (HTTPException status detail) ∧ (status = 400 ∨ status = 500)) ∧
  Forall (λ e, pre_yield_event e = true) (log r).
Proof.
  intros Hz Hbad. simpl. rewrite ocr_smalter_sync_run.
  destruct (is_cni_type it && negb (truthy lang))%bool; simpl.
  { split; [eauto 6|constructor]. }
  rewrite Hz, bulk_branch_run.
  destruct (bool_decide (it ∉ supported_bulk_types)); simpl.
  { split; [eauto 6|repeat constructor]. }
  destruct (run_bulk_unreadable g (content file) it lang fs (or_intror Hbad))
    as [[e He] Hl].
  rewrite He. split; [eauto 6|]. constructor; [reflexivity|exact Hl].
Qed.

(** C3 — Resource cleanup on every exit path: whenever the bulk processor
    created a scratch directory, neither the directory nor anything below
    it exists when the call ends, whether it returns or raises, called
    directly or through the endpoint; and whenever the single-document
    branch handed its temporary file to the model, that file no longer
    exists when the request ends, whether the model returned or raised. *)
Theorem cleanup_on_every_exit g zip_bytes it file lang fs :
  let b := run_bulk_ocr_task_sync g zip_bytes it lang fs in
  let r := ocr_smalter_sync g it file lang fs in
  (∀ d p, EvMkdtemp d ∈ log b → under d p = true → store b !! p = None) ∧
  (∀ d p, EvMkdtemp d ∈ log r → under d p = true → store r !! p = None) ∧
  (∀ p, EvMkstemp p ∈ log r → EvModel p ∈ log r → store r !! p = None).
Proof.
  simpl. split_and!.
  - intros d p. apply run_bulk_cleanup.
  - intros d p. rewrite ocr_smalter_sync_run.
    destruct (is_cni_type it && negb (truthy lang))%bool; simpl.
    { intros Hin. apply elem_of_nil in Hin. contradiction. }
    destruct (PyStr.endswith (PyStr.lower (filename file)) ".zip").
    + rewrite bulk_branch_run.
      destruct (bool_decide (it ∉ supported_bulk_types)); simpl.
      * intros Hin. apply elem_of_cons in Hin as [[=]|Hin].
        apply elem_of_nil in Hin. contradiction.
      * intros Hin. apply elem_of_cons in Hin as [[=]|Hin].
        apply run_bulk_cleanup. exact Hin.
    + rewrite single_branch_run. simpl.
      destruct (get_document_creation_date_sync _ _); simpl.
      * destruct (write_fault _ _); simpl; intros Hin;
          rewrite !elem_of_cons, elem_of_nil in Hin;
          exfalso; intuition discriminate.
      * intros Hin. rewrite !elem_of_cons, elem_of_nil in Hin.
        exfalso; intuition discriminate.
  - intros p. rewrite ocr_smalter_sync_run.
    destruct (is_cni_type it && negb (truthy lang))%bool; simpl.
    { intros Hin. apply elem_of_nil in Hin. contradiction. }
    destruct (PyStr.endswith (PyStr.lower (filename file)) ".zip").
    + rewrite bulk_branch_run.
      destruct (bool_decide (it ∉ supported_bulk_types)); simpl.
      * intros Hin. rewrite !elem_of_cons, elem_of_nil in Hin.
        exfalso; intuition discriminate.
      * intros Hin. apply elem_of_cons in Hin as [[=]|Hin].
        pose proof (run_bulk_log g (content file) it lang fs) as Hl.
        rewrite Forall_forall in Hl. apply Hl in Hin. discriminate.
    + rewrite single_branch_run. simpl.
      destruct (get_document_creation_date_sync _ _); simpl.
      * destruct (write_fault _ _); simpl; intros Hin Hm.
        -- rewrite !elem_of_cons, elem_of_nil in Hm.
           exfalso; intuition discriminate.
        -- rewrite !elem_of_cons, elem_of_nil in Hin.
           assert (p = mkstemp fs (PyStr.splitext (filename file)).2) as ->.
           { repeat (destruct Hin as [Hin|Hin];
                     [try discriminate; injection Hin; auto|]).
             contradiction. }
           apply lookup_delete_eq.
      * intros Hin. rewrite !elem_of_cons, elem_of_nil in Hin.
        exfalso; intuition discriminate.
Qed.

(** A fragment is either the error fragment of an entry whose processing
    raised, or the envelope built from what the collaborators returned. *)
Lemma bulk_fragment_cases it lang root name fs f :
  res (bulk_entry it lang root name fs) = Ok f →
  (∃ e, res (bulk_entry_try it lang (os_path_join root name) name fs) = Raise e ∧
        f = error_fragment name e) ∨
  (∃ creation_date ocr_result extra,
      res (bulk_entry_try it lang (os_path_join root name) name fs) = Ok f ∧
      ocr_smalter_helper (os_path_join root name) (fs !! os_path_join root name) it lang
        = Ok ocr_result ∧
      (if is_cni_type it
       then ∃ l, lang = Some l ∧ extra = [("language", JStr (CniLanguage_value l))]
       else extra = []) ∧
      f = JDict
            [("file_metadata",
              JDict ([("source_file", JStr name);
                      ("file_url", JStr ("/ocr/smalter/" ++ SmalterDocumentType_value it));
                      ("file_type", JStr (file_type_of (PyStr.splitext name).2));
                      ("file_creation_date", JStr creation_date)] ++ extra));
             ("details", JList (details_of ocr_result))]).
Proof.
  destruct (bulk_entry_run it lang root name fs) as (_ & _ & Hr).
  rewrite Hr. intros [= <-].
  destruct (res (bulk_entry_try it lang (os_path_join root name) name fs)) as [f|e] eqn:E.
  - right. destruct (bulk_entry_try_ok _ _ _ _ _ _ E) as (b & cd & o & extra & _ & _ & Ho & Hx & ->).
    exists cd, o, extra. auto.
  - left. eauto.
Qed.

Lemma error_fragment_is_failure name e :
  is_failure (error_fragment name e) = true ∧
  source_file (error_fragment name e) = Some name ∧
  fragment_details (error_fragment name e) = Some (JList [JStr (str_exc e)]).
Proof. repeat split. Qed.





(** With [zipfile] bound and a readable archive, the bulk processor returns
    one fragment per supported entry of the listing, in its order, each
    carrying the entry's name, a Failure fragment exactly for the entries
    whose processing raised. *)
Lemma bulk_fragments_when_zipfile_bound g zip_bytes it lang fs z :
  bound g "tempfile" = true → bound g "io" = true →
  bound g "zipfile" = true → bound g "os" = true →
  ZipFile zip_bytes = Ok z → extract_fault z = None →
  let d := mkdtemp fs in
  let fs' := extracted z d (<[d := Dir]> fs) in
  ∃ results,
    res (run_bulk_ocr_task_sync g zip_bytes it lang fs) = Ok results ∧
    Forall2 (λ rn f,
               source_file f = Some rn.2 ∧
               (is_failure f = true ↔
                  ∃ e, res (bulk_entry_try it lang (os_path_join rn.1 rn.2) rn.2 fs')
                         = Raise e))
            (walk_entries (os_walk fs' d)) results.
Proof.
  intros Ht Hio Hzip Hos Ez Ef. simpl. rewrite run_bulk_run, Ht. simpl.
  destruct (bulk_in_temp_dir_ok g zip_bytes it lang [] (mkdtemp fs)
              (<[mkdtemp fs := Dir]> fs) z Hio Hzip Hos Ez Ef)
    as (_ & frs & Hr & Hf).
  exists frs. split; [exact Hr|].
  eapply Forall2_impl; [exact Hf|]. intros [root name] f Hx. simpl in *.
  destruct (bulk_fragment_cases it lang root name _ f Hx)
    as [(e & He & ->)|(cd & o & extra & Hok & _ & Hextra & ->)].
  - split; [reflexivity|]. split; [eauto|reflexivity].
  - split; [reflexivity|]. rewrite Hok. split.
    + destruct (is_cni_type it).
      * destruct Hextra as (l & _ & ->). discriminate.
      * subst extra. discriminate.
    + intros [e He]. discriminate.
Qed.

End Claims.

(** C2 — One fragment per supported file: the code does not reach it.  The
    module never imports [zipfile], so for every archive, selector and hint
    the bulk processor raises [NameError] right after creating its scratch
    directory and returns no fragment at all; on the archive holding
    [a.png], [b.jpg] and [notes.txt] the endpoint answers 500 where two
    fragments are due. *)
Theorem bulk_dispatch_raises_NameError :
  (∀ (H : Helpers) zip_bytes it lang fs,
      let r := run_bulk_ocr_task_sync module_globals zip_bytes it lang fs in
      res r = Raise (NameError "zipfile") ∧
      log r = [EvMkdtemp (mkdtemp fs); EvRmtree (mkdtemp fs)]) ∧
  res (@ocr_smalter_sync Demo.helpers module_globals CNI_FRONT
         {| filename := "docs.zip"; content := "PK.." |} (Some Demo.fr) ∅)
    = Raise (HTTPException 500 "Bulk processing failed: name 'zipfile' is not defined").
Proof.
  split.
  - intros H zip_bytes it lang fs.
    destruct module_globals_bound as (Ht & Hio & _ & Hzip). cbv zeta.
    rewrite (run_bulk_zipfile_unbound module_globals zip_bytes it lang fs Ht Hio Hzip).
    split; reflexivity.
  - vm_compute. reflexivity.
Qed.

(** C1 — Per-entry failure isolation: the code does not reach it.  Because
    [zipfile] is unbound no entry is ever opened, dated or sent to the model,
    and the dispatch as a whole raises: on an archive of three supported
    entries of which the second makes the model fail, the endpoint answers 500
    with no fragment, where three fragments with one Failure are due. *)
Theorem bulk_isolation_unreached :
  (∀ (H : Helpers) zip_bytes it lang fs,
      let r := run_bulk_ocr_task_sync module_globals zip_bytes it lang fs in
      (∀ results, res r ≠ Ok results) ∧
      Forall (λ e, entry_event e = false) (log r)) ∧
  let r := @ocr_smalter_sync Demo.helpers module_globals WORK_CONTRACT
             {| filename := "contracts.zip"; content := "PK!.." |} None ∅ in
  res r = Raise (HTTPException 500 "Bulk processing failed: name 'zipfile' is not defined") ∧
  log r = [EvReadUpload "contracts.zip"; EvMkdtemp "/tmp/tmpdir"; EvRmtree "/tmp/tmpdir"].
Proof.
  split.
  - intros H zip_bytes it lang fs.
    destruct module_globals_bound as (Ht & Hio & _ & Hzip). cbv zeta.
    rewrite (run_bulk_zipfile_unbound module_globals zip_bytes it lang fs Ht Hio Hzip).
    cbn [res log]. split; [discriminate|repeat constructor].
  - vm_compute. split; reflexivity.
Qed.

(** With [zipfile] imported as well, the same two requests give what the
    claims C1 and C2 describe, the entries coming in the order in which the
    stand-in for [os.walk] lists them. *)
Example bulk_three_files_with_zipfile :
  res (@ocr_smalter_sync Demo.helpers Demo.globals_with_zipfile CNI_FRONT
         {| filename := "docs.zip"; content := "PK.." |} (Some Demo.fr) ∅)
  = Ok (JSONResponse (JList
      [JDict [("file_metadata",
               JDict [("source_file", JStr "a.png");
                      ("file_url", JStr "/ocr/smalter/cni_front");
                      ("file_type", JStr "PNG");
                      ("file_creation_date", JStr "2024-01-01");
                      ("language", JStr "fr")]);
              ("details", JList [JDict [("text", JStr "front")]])];
       JDict [("file_metadata",
               JDict [("source_file", JStr "b.jpg");
                      ("file_url", JStr "/ocr/smalter/cni_front");
                      ("file_type", JStr "JPG");
                      ("file_creation_date", JStr "2024-01-01");
                      ("language", JStr "fr")]);
              ("details", JList [JDict [("text", JStr "back")]])]])).
Proof. vm_compute. reflexivity. Qed.

Example bulk_one_failure_with_zipfile :
  let r := @ocr_smalter_sync Demo.helpers Demo.globals_with_zipfile WORK_CONTRACT
             {| filename := "contracts.zip"; content := "PK!.." |} None ∅ in
  ∃ results,
    res r = Ok (JSONResponse (JList results)) ∧
    source_file <$> results = [Some "c.pdf"; Some "a.png"; Some "b.jpg"] ∧
    is_failure <$> results = [false; false; true] ∧
    fragment_details <$> results
      = [Some (JList [JDict [("text", JStr "pages")]]);
         Some (JList [JDict [("text", JStr "front")]]);
         Some (JList [JStr "model failed"])] ∧
    store r = ∅.
Proof.
  eexists. split; [vm_compute; reflexivity|].
  split_and!; vm_compute; reflexivity.
Qed.

Section Resume.

Context `{Helpers}.

(** C6 — Single-document status codes: the statuses 415 and 422 do not
    reach the caller.  Both are raised inside the [try] of the resume
    endpoint, whose [except Exception] turns every exception, these two
    included, into a status 500 carrying their text: a request never ends
    with another status than 500; an unrecognised file type ends with 500
    where 415 is due, and a PDF without a page with 500 where 422 is due. *)
Theorem resume_client_errors_become_500 file fs :
  let r := extract_resume_fields file fs in
  let file_type := file_type_of (PyStr.splitext (filename file)).2 in
  match res r with
  | Ok _ => True
  | Raise e => ∃ detail, e = HTTPException 500 detail
  end ∧
  (∀ creation_date,
      get_document_creation_date_sync (filename file) (content file) = Ok creation_date →
      file_type ∉ ["PDF"; "PNG"; "JPG"; "JPEG"] →
      res r = Raise (HTTPException 500
                (str_exc (HTTPException 415
                   ("Unsupported file type: " ++ file_type ++ "."))))) ∧
  (∀ creation_date,
      get_document_creation_date_sync (filename file) (content file) = Ok creation_date →
      file_type = "PDF" →
      convert_from_bytes (content file) = Ok [] →
      res r = Raise (HTTPException 500
                (str_exc (HTTPException 422 "Could not process file into an image.")))).
Proof.
  cbv zeta. unfold extract_resume_fields.
  match goal with
  | |- context [try_except ?m ?h fs] =>
      destruct (try_except_reraise m str_exc fs) as (_ & _ & Hr); rewrite Hr
  end.
  split_and!.
  - match goal with |- match match ?x with _ => _ end with _ => _ end =>
      destruct x; [exact I|eauto] end.
  - intros cd Hcd Hft.
    unfold call_creation_date. run_unfold. simpl. rewrite Hcd. simpl.
    destruct (String.eqb_spec (file_type_of (PyStr.splitext (filename file)).2) "PDF")
      as [Heq|_].
    { exfalso. apply Hft. rewrite Heq. apply list_elem_of_here. }
    rewrite bool_decide_eq_false_2.
    + reflexivity.
    + intros Hin. apply Hft. apply list_elem_of_further. exact Hin.
  - intros cd Hcd Hft Hconv.
    unfold call_creation_date, call_convert_from_bytes. run_unfold. simpl.
    rewrite Hcd. simpl. rewrite Hft. simpl. rewrite Hconv. reflexivity.
Qed.

End Resume.

Lemma resume_client_errors_become_500_witness :
  res (@extract_resume_fields Demo.helpers {| filename := "notes.txt"; content := "memo" |} ∅)
    = Raise (HTTPException 500 "415: Unsupported file type: TXT.") ∧
  res (@extract_resume_fields Demo.helpers {| filename := "blank.pdf"; content := "" |} ∅)
    = Raise (HTTPException 500 "422: Could not process file into an image.").
Proof.
  split.
  - destruct (@resume_client_errors_become_500 Demo.helpers
                {| filename := "notes.txt"; content := "memo" |} ∅) as (_ & H415 & _).
    apply (H415 "2024-01-01"); [reflexivity|].
    by_compute.
  - destruct (@resume_client_errors_become_500 Demo.helpers
                {| filename := "blank.pdf"; content := "" |} ∅) as (_ & _ & H422).
    apply (H422 "2024-01-01"); reflexivity.
Defined.

(** ** The claims on explicit requests *)

Lemma lang_hint_validation_witness :
  let r := @ocr_smalter_sync Demo.helpers module_globals CNI_BACK
             {| filename := "id.png"; content := "back" |} None ∅ in
  res r = Raise (HTTPException 400 "The 'lang' parameter is required for CNI documents.") ∧
  log r = [] ∧ store r = ∅.
Proof.
  destruct (@lang_hint_validation Demo.helpers module_globals CNI_BACK
              {| filename := "id.png"; content := "back" |} None ∅)
    as (Hiff & Hearly & _).
  assert (Hc : CNI_BACK ∈ [CNI_FRONT; CNI_BACK]) by by_compute.
  split.
  - apply Hiff. split; [exact Hc|reflexivity].
  - apply Hearly; [exact Hc|reflexivity].
Defined.

Lemma bulk_eligibility_witness :
  (let r := @ocr_smalter_sync Demo.helpers module_globals (OTHER_DOCUMENT "resume")
              {| filename := "batch.ZIP"; content := "PK.." |} None ∅ in
   res r = Raise (HTTPException 400 "Bulk processing for 'resume' is not supported.") ∧
   log r = [EvReadUpload "batch.ZIP"] ∧ store r = ∅) ∧
  (let r := @ocr_smalter_sync Demo.helpers module_globals WORK_CONTRACT
              {| filename := "batch.ZIP"; content := "PK.." |} None ∅ in
   let b := @run_bulk_ocr_task_sync Demo.helpers module_globals "PK.." WORK_CONTRACT None ∅ in
   log r = EvReadUpload "batch.ZIP" :: log b ∧ store r = store b ∧
   res r = match res b with
           | Ok l => Ok (JSONResponse (JList l))
           | Raise e => Raise (HTTPException 500 ("Bulk processing failed: " ++ str_exc e))
           end).
Proof.
  split.
  - destruct (@bulk_eligibility Demo.helpers module_globals (OTHER_DOCUMENT "resume")
                {| filename := "batch.ZIP"; content := "PK.." |} None ∅ eq_refl)
      as [Hout _].
    apply Hout. by_compute.
  - destruct (@bulk_eligibility Demo.helpers module_globals WORK_CONTRACT
                {| filename := "batch.ZIP"; content := "PK.." |} None ∅ eq_refl)
      as [_ Hin].
    apply Hin; [by_compute|reflexivity].
Defined.

Lemma malformed_archive_fails_fast_witness :
  let r := @ocr_smalter_sync Demo.helpers Demo.globals_with_zipfile WORK_CONTRACT
             {| filename := "broken.zip"; content := "not an archive" |} None ∅ in
  (∃ status detail,
      res r = Raise (HTTPException status detail) ∧ (status = 400 ∨ status = 500)) ∧
  Forall (λ e, pre_yield_event e = true) (log r).
Proof.
  exact (@malformed_archive_fails_fast Demo.helpers Demo.globals_with_zipfile WORK_CONTRACT
           {| filename := "broken.zip"; content := "not an archive" |} None ∅
           eq_refl eq_refl).
Defined.

Example malformed_archive_response :
  let r := @ocr_smalter_sync Demo.helpers Demo.globals_with_zipfile WORK_CONTRACT
             {| filename := "broken.zip"; content := "not an archive" |} None ∅ in
  res r = Raise (HTTPException 500 "Bulk processing failed: File is not a zip file") ∧
  log r = [EvReadUpload "broken.zip"; EvMkdtemp "/tmp/tmpdir"; EvRmtree "/tmp/tmpdir"] ∧
  store r = ∅.
Proof. split_and!; vm_compute; reflexivity. Qed.

Lemma cleanup_on_every_exit_witness :
  let b := @run_bulk_ocr_task_sync Demo.helpers Demo.globals_with_zipfile
             "PK!.." WORK_CONTRACT None ∅ in
  let r := @ocr_smalter_sync Demo.helpers module_globals WORK_CONTRACT
             {| filename := "c.pdf"; content := "bad" |} None ∅ in
  store b !! "/tmp/tmpdir" = None ∧
  store b !! "/tmp/tmpdir/b.jpg" = None ∧
  store r !! "/tmp/tmpfile.pdf" = None.
Proof.
  destruct (@cleanup_on_every_exit Demo.helpers Demo.globals_with_zipfile "PK!.."
              WORK_CONTRACT {| filename := "c.pdf"; content := "bad" |} None ∅)
    as (Hdir & _ & _).
  destruct (@cleanup_on_every_exit Demo.helpers module_globals "PK!.."
              WORK_CONTRACT {| filename := "c.pdf"; content := "bad" |} None ∅)
    as (_ & _ & Hfile).
  split_and!.
  - apply (Hdir "/tmp/tmpdir"); [by_compute|reflexivity].
  - apply (Hdir "/tmp/tmpdir"); [by_compute|reflexivity].
  - apply Hfile; by_compute.
Defined.



(** Archive bytes under another name go through the single-document branch,
    and any bytes under a [*.zip] name go to the bulk processor. *)
Example archive_bytes_named_png :
  let r := @ocr_smalter_sync Demo.helpers Demo.globals_with_zipfile WORK_CONTRACT
             {| filename := "scan.png"; content := "PK.." |} None ∅ in
  observed_mode r = Single ∧
  log r = [EvReadUpload "scan.png"; EvCreationDate "scan.png";
           EvMkstemp "/tmp/tmpfile.png"; EvWrite "/tmp/tmpfile.png";
           EvModel "/tmp/tmpfile.png"; EvRemove "/tmp/tmpfile.png"].
Proof. split; vm_compute; reflexivity. Qed.

Example plain_bytes_named_zip :
  let r := @ocr_smalter_sync Demo.helpers Demo.globals_with_zipfile WORK_CONTRACT
             {| filename := "Report.ZIP"; content := "plain text" |} None ∅ in
  observed_mode r = Bulk ∧
  log r = [EvReadUpload "Report.ZIP"; EvMkdtemp "/tmp/tmpdir"; EvRmtree "/tmp/tmpdir"].
Proof. split; vm_compute; reflexivity. Qed.

(** The temporary file of the single-document branch is removed by the
    [finally] around the model call only: when writing the upload to it
    fails, the request ends with status 500 and the file stays. *)
Remark temp_file_kept_on_write_fault `{Helpers} g it file lang fs creation_date e :
  (is_cni_type it && negb (truthy lang))%bool = false →
  PyStr.endswith (PyStr.lower (filename file)) ".zip" = false →
  get_document_creation_date_sync (filename file) (content file) = Ok creation_date →
  let p := mkstemp fs (PyStr.splitext (filename file)).2 in
  write_fault p (content file) = Some e →
  let r := ocr_smalter_sync g it file lang fs in
  res r = Raise (HTTPException 500 (str_exc e)) ∧ store r !! p = Some (File "").
Proof.
  intros Hv Hz Hcd p Hw. cbv zeta. rewrite ocr_smalter_sync_run, Hv, Hz. cbn [res store].
  rewrite single_branch_run. cbv zeta. rewrite Hcd. fold p. rewrite Hw. cbn [res store].
  split; [reflexivity|]. apply lookup_insert_eq.
Qed.

(** * Further properties of the code *)

(** ** Running a chain of binds step by step *)

Section Steps.

Context {A B C : Type}.

Lemma run_bind_assoc (m : M A) (f : A → M B) (g : B → M C) fs :
  ((m ≫= f) ≫= g) fs = (m ≫= λ x, f x ≫= g) fs.
Proof.
  unfold mbind, M_bind. cbn [res store log].
  destruct (res (m fs)) as [a|e]; cbn [res store log]; [|reflexivity].
  destruct (res (f a (store (m fs)))) as [b|e]; cbn [res store log]; [|reflexivity].
  rewrite app_assoc. reflexivity.
Qed.

Lemma run_bind_emit (ev : Event) (k : unit → M B) fs :
  (emit ev ≫= k) fs = prepend [ev] (k tt fs).
Proof. reflexivity. Qed.

Lemma run_bind_mret (a : A) (k : A → M B) fs : (mret a ≫= k) fs = k a fs.
Proof. unfold mbind, M_bind, mret, M_ret. cbn. destruct (k a fs). reflexivity. Qed.

Lemma run_bind_lift (r : result A) (k : A → M B) fs :
  (lift r ≫= k) fs =
  match r with
  | Ok a => k a fs
  | Raise e => {| res := Raise e; store := fs; log := [] |}
  end.
Proof.
  unfold mbind, M_bind, lift. cbn. destruct r as [a|e]; [|reflexivity].
  destruct (k a fs). reflexivity.
Qed.

End Steps.

Ltac run_steps :=
  repeat (first [ rewrite run_bind_assoc | rewrite run_bind_emit
                | rewrite run_bind_mret | rewrite run_bind_lift ];
          cbv beta);
  cbn [prepend res store log app mret M_ret lift emit].

(** ** Letter case and the file-type tag *)

Lemma lower_char_idem c : PyStr.lower_char (PyStr.lower_char c) = PyStr.lower_char c.
Proof. destruct c as [[] [] [] [] [] [] [] []]; reflexivity. Qed.

Lemma upper_char_idem c : PyStr.upper_char (PyStr.upper_char c) = PyStr.upper_char c.
Proof. destruct c as [[] [] [] [] [] [] [] []]; reflexivity. Qed.

Lemma lower_upper_char c : PyStr.lower_char (PyStr.upper_char c) = PyStr.lower_char c.
Proof. destruct c as [[] [] [] [] [] [] [] []]; reflexivity. Qed.

Lemma upper_lower_char c : PyStr.upper_char (PyStr.lower_char c) = PyStr.upper_char c.
Proof. destruct c as [[] [] [] [] [] [] [] []]; reflexivity. Qed.

Lemma upper_char_dot c : Ascii.eqb (PyStr.upper_char c) "." = Ascii.eqb c ".".
Proof. destruct c as [[] [] [] [] [] [] [] []]; reflexivity. Qed.

Lemma lower_char_dot c : Ascii.eqb (PyStr.lower_char c) "." = Ascii.eqb c ".".
Proof. destruct c as [[] [] [] [] [] [] [] []]; reflexivity. Qed.

Lemma lower_char_slash c : Ascii.eqb (PyStr.lower_char c) "/" = Ascii.eqb c "/".
Proof. destruct c as [[] [] [] [] [] [] [] []]; reflexivity. Qed.

Lemma lower_idem s : PyStr.lower (PyStr.lower s) = PyStr.lower s.
Proof. induction s as [|c s IH]; simpl; [reflexivity|]. rewrite lower_char_idem, IH. reflexivity. Qed.

Lemma lower_upper s : PyStr.lower (PyStr.upper s) = PyStr.lower s.
Proof. induction s as [|c s IH]; simpl; [reflexivity|]. rewrite lower_upper_char, IH. reflexivity. Qed.

Lemma upper_idem s : PyStr.upper (PyStr.upper s) = PyStr.upper s.
Proof. induction s as [|c s IH]; simpl; [reflexivity|]. rewrite upper_char_idem, IH. reflexivity. Qed.

Lemma upper_lower s : PyStr.upper (PyStr.lower s) = PyStr.upper s.
Proof. induction s as [|c s IH]; simpl; [reflexivity|]. rewrite upper_lower_char, IH. reflexivity. Qed.

Lemma remove_dot_lower s :
  PyStr.remove_char "." (PyStr.lower s) = PyStr.lower (PyStr.remove_char "." s).
Proof.
  induction s as [|c s IH]; simpl; [reflexivity|].
  rewrite lower_char_dot. destruct (Ascii.eqb c "."); simpl; rewrite IH; reflexivity.
Qed.

Lemma remove_dot_upper s :
  PyStr.remove_char "." (PyStr.upper s) = PyStr.upper (PyStr.remove_char "." s).
Proof.
  induction s as [|c s IH]; simpl; [reflexivity|].
  rewrite upper_char_dot. destruct (Ascii.eqb c "."); simpl; rewrite IH; reflexivity.
Qed.

Lemma has_dot_upper_removed s :
  has_char "." (PyStr.upper (PyStr.remove_char "." s)) = false.
Proof.
  induction s as [|c s IH]; simpl; [reflexivity|].
  destruct (Ascii.eqb c ".") eqn:E; simpl; [exact IH|].
  rewrite upper_char_dot, E. exact IH.
Qed.

Lemma remove_dot_empty s :
  PyStr.remove_char "." s = "" ↔ all_char "." s = true.
Proof.
  induction s as [|c s IH]; simpl; [tauto|].
  destruct (Ascii.eqb c "."); simpl; [exact IH|]. split; discriminate.
Qed.

Lemma upper_empty s : PyStr.upper s = "" ↔ s = "".
Proof. destruct s; simpl; split; (reflexivity || discriminate). Qed.

Lemma lower_empty s : PyStr.lower s = "" ↔ s = "".
Proof. destruct s; simpl; split; (reflexivity || discriminate). Qed.

Lemma eqb_empty_lower s : String.eqb (PyStr.lower s) "" = String.eqb s "".
Proof. destruct s; reflexivity. Qed.

Lemma eqb_empty_upper s : String.eqb (PyStr.upper s) "" = String.eqb s "".
Proof. destruct s; reflexivity. Qed.

Lemma upper_char_ascii c :
  (nat_of_ascii c <? 128)%nat = true → (nat_of_ascii (PyStr.upper_char c) <? 128)%nat = true.
Proof. destruct c as [[] [] [] [] [] [] [] []]; intros Hc; (exact Hc || reflexivity). Qed.

Lemma is_ascii_upper_removed s :
  is_ascii s = true → is_ascii (PyStr.upper (PyStr.remove_char "." s)) = true.
Proof.
  induction s as [|c s IH]; simpl; [reflexivity|].
  intros Hs. apply andb_true_iff in Hs as [Hc Hs].
  destruct (Ascii.eqb c "."); simpl; [apply IH, Hs|].
  rewrite (upper_char_ascii c Hc). apply IH, Hs.
Qed.

(** X1 — The file-type tag (lines 62-63, 114-115, 142-143, 175-176) is
    [UNKNOWN] for the empty extension; for an ASCII extension it is ASCII,
    never holds a dot and is its own uppercase, and it is the empty string,
    not [UNKNOWN], exactly when the extension is non-empty and made of dots
    only (a name such as [scan.]). *)
Theorem file_type_tag_shape (file_extension : string) :
  file_type_of "" = "UNKNOWN" ∧
  (is_ascii file_extension = true →
     is_ascii (file_type_of file_extension) = true ∧
     has_char "." (file_type_of file_extension) = false ∧
     PyStr.upper (file_type_of file_extension) = file_type_of file_extension ∧
     (file_type_of file_extension = ""
        ↔ file_extension ≠ "" ∧ all_char "." file_extension = true)).
Proof.
  split; [reflexivity|]. intros Ha. unfold file_type_of. split_and!.
  - destruct (String.eqb file_extension ""); [reflexivity|].
    apply is_ascii_upper_removed, Ha.
  - destruct (String.eqb file_extension ""); [reflexivity|apply has_dot_upper_removed].
  - destruct (String.eqb file_extension ""); [reflexivity|apply upper_idem].
  - destruct (String.eqb_spec file_extension "") as [->|Hne].
    + split; [discriminate|]. intros [Hn _]. contradiction.
    + rewrite upper_empty, remove_dot_empty. tauto.
Qed.

Lemma file_type_tag_shape_witness :
  file_type_of (PyStr.splitext "scan.").2 = "" ∧
  file_type_of (PyStr.splitext "scan").2 = "UNKNOWN" ∧
  file_type_of (PyStr.splitext "scan.Jpeg").2 = "JPEG".
Proof.
  split_and!; [|reflexivity|reflexivity].
  destruct (file_type_tag_shape (PyStr.splitext "scan.").2) as [_ Hshape].
  destruct (Hshape eq_refl) as (_ & _ & _ & Hempty).
  apply Hempty. split; [discriminate|reflexivity].
Defined.

Lemma file_type_of_lower (file_extension : string) :
  file_type_of (PyStr.lower file_extension) = file_type_of file_extension.
Proof.
  unfold file_type_of. rewrite eqb_empty_lower, remove_dot_lower, upper_lower. reflexivity.
Qed.

(** X2 — For an ASCII extension the file-type tag does not depend on the
    letter case: lowering or uppercasing the extension leaves the tag
    unchanged. *)
Theorem file_type_case_insensitive (file_extension : string) :
  is_ascii file_extension = true →
  file_type_of (PyStr.lower file_extension) = file_type_of file_extension ∧
  file_type_of (PyStr.upper file_extension) = file_type_of file_extension.
Proof.
  intros _. split.
  - apply file_type_of_lower.
  - unfold file_type_of.
    rewrite eqb_empty_upper, remove_dot_upper, upper_idem. reflexivity.
Qed.

Lemma file_type_case_insensitive_witness :
  file_type_of ".jpeg" = file_type_of ".JpEg" ∧ file_type_of ".JPEG" = file_type_of ".JpEg".
Proof. exact (file_type_case_insensitive ".JpEg" eq_refl). Defined.

(** X3 — For an ASCII name both name tests ignore letter case: whether an
    archive entry is supported (line 170) and whether an upload is taken for
    an archive (line 98) are unchanged when the name is lowered or
    uppercased. *)
Theorem name_tests_case_insensitive (name : string) :
  is_ascii name = true →
  supported (PyStr.lower name) = supported name ∧
  supported (PyStr.upper name) = supported name ∧
  PyStr.endswith (PyStr.lower (PyStr.lower name)) ".zip"
    = PyStr.endswith (PyStr.lower name) ".zip" ∧
  PyStr.endswith (PyStr.lower (PyStr.upper name)) ".zip"
    = PyStr.endswith (PyStr.lower name) ".zip".
Proof.
  intros _. unfold supported. rewrite lower_idem, lower_upper. auto.
Qed.

Lemma name_tests_case_insensitive_witness :
  supported "scan.PnG" = true ∧ supported "SCAN.PNG" = true ∧
  PyStr.endswith (PyStr.lower "BATCH.ZIP") ".zip" = true.
Proof.
  destruct (name_tests_case_insensitive "scan.PnG" eq_refl) as (_ & Hup & _).
  destruct (name_tests_case_insensitive "batch.Zip" eq_refl) as (_ & _ & _ & Hzip).
  split_and!.
  - reflexivity.
  - exact (eq_trans Hup eq_refl).
  - exact (eq_trans Hzip eq_refl).
Defined.

(** ** The loop over the extracted entries (lines 167 to 187) *)

Section LoopFacts.

Context `{Helpers}.

(** One entry: the file is opened first; the creation date and the model
    follow, each at most once. *)
Lemma bulk_entry_log it lang root name fs :
  let p := os_path_join root name in
  let l := log (bulk_entry it lang root name fs) in
  l = [EvOpen p] ∨ l = [EvOpen p; EvCreationDate name] ∨
  l = [EvOpen p; EvCreationDate name; EvModel p].
Proof.
  cbv zeta. unfold bulk_entry. run_unfold. simpl.
  destruct (fs !! os_path_join root name) as [[|b]|]; simpl; auto.
  destruct (get_document_creation_date_sync name b); simpl; auto.
  destruct (ocr_smalter_helper _ (Some (File b)) it lang); simpl; auto.
  destruct (is_cni_type it); simpl; auto.
  destruct lang; simpl; auto.
Qed.

Lemma bulk_entry_opened it lang root name fs :
  let l := log (bulk_entry it lang root name fs) in
  opened l = [os_path_join root name] ∧ model_calls l `sublist_of` opened l.
Proof.
  cbv zeta.
  destruct (bulk_entry_log it lang root name fs) as [E|[E|E]]; rewrite E; simpl.
  - split; [reflexivity|]. apply sublist_nil_l.
  - split; [reflexivity|]. apply sublist_nil_l.
  - split; reflexivity.
Qed.

Lemma bulk_files_opened it lang root files acc fs :
  let l := log (bulk_files it lang root files acc fs) in
  opened l = (λ name, os_path_join root name) <$> filter (λ name, supported name = true) files ∧
  model_calls l `sublist_of` opened l.
Proof.
  revert acc. induction files as [|name files IH]; intros acc; simpl.
  - split; reflexivity.
  - destruct (supported name) eqn:Es; simpl.
    + destruct (bulk_entry_run it lang root name fs) as (Hs & _ & Hr).
      erewrite run_bind_ok by exact Hr. simpl. rewrite Hs.
      destruct (bulk_entry_opened it lang root name fs) as [Ho Hm].
      match goal with
      | |- context [bulk_files it lang root files ?a fs] =>
          destruct (IH a) as [IHo IHm]
      end.
      unfold opened, model_calls in *. rewrite !omap_app.
      rewrite filter_cons_True by exact Es. rewrite fmap_cons.
      split.
      * rewrite Ho, IHo. reflexivity.
      * apply sublist_app; assumption.
    + rewrite filter_cons_False by (rewrite Es; discriminate). apply IH.
Qed.

(** X4 — The loop never raises and leaves the storage as it was: for every
    listing it returns the results it was given followed by exactly one
    fragment per supported entry, in enumeration order, each carrying its
    entry's name; the fragment is a Failure fragment exactly when processing
    that entry raised, and unsupported names give no fragment. *)
Theorem bulk_loop_one_fragment_per_entry it lang listing acc fs :
  let r := bulk_walk it lang listing acc fs in
  store r = fs ∧
  ∃ frs,
    res r = Ok (acc ++ frs)%list ∧
    Forall2 (λ rn f,
               source_file f = Some rn.2 ∧
               (is_failure f = true ↔
                  ∃ e, res (bulk_entry_try it lang (os_path_join rn.1 rn.2) rn.2 fs)
                         = Raise e))
            (walk_entries listing) frs.
Proof.
  destruct (bulk_walk_spec it lang listing acc fs) as (Hs & _ & frs & Hr & Hf).
  cbv zeta. split; [exact Hs|]. exists frs. split; [exact Hr|].
  eapply Forall2_impl; [exact Hf|]. intros [root name] f Hx. simpl in *.
  destruct (bulk_fragment_cases it lang root name fs f Hx)
    as [(e & He & ->)|(cd & o & extra & Hok & _ & Hextra & ->)].
  - split; [reflexivity|]. split; [eauto|reflexivity].
  - split; [reflexivity|]. rewrite Hok. split.
    + destruct (is_cni_type it).
      * destruct Hextra as (l & _ & ->). discriminate.
      * subst extra. discriminate.
    + intros [e He]. discriminate.
Qed.

(** X5 — The loop opens every supported entry exactly once, in enumeration
    order, and nothing else; the model is called at most once per entry, on
    opened entries only and in the same order. *)
Theorem bulk_loop_opens_each_entry_once it lang listing acc fs :
  let l := log (bulk_walk it lang listing acc fs) in
  opened l = (λ rn, os_path_join rn.1 rn.2) <$> walk_entries listing ∧
  model_calls l `sublist_of` opened l.
Proof.
  revert acc. induction listing as [|[root files] listing IH]; intros acc; simpl.
  - split; reflexivity.
  - destruct (bulk_files_spec it lang root files acc fs) as (Hs & _ & frs & Hr & _).
    erewrite run_bind_ok by exact Hr. simpl. rewrite Hs.
    destruct (bulk_files_opened it lang root files acc fs) as [Ho Hm].
    destruct (IH (acc ++ frs)%list) as [IHo IHm].
    unfold opened, model_calls in *. rewrite !omap_app.
    unfold walk_entries in *. simpl. rewrite fmap_app, <- list_fmap_compose.
    split.
    + rewrite Ho, IHo. reflexivity.
    + apply sublist_app; assumption.
Qed.

(** X6 — The bulk loop does not check the language hint itself: called with
    an identity selector and no hint, it returns a Failure fragment for every
    supported entry, never a success. *)
Theorem bulk_loop_identity_without_hint it listing acc fs :
  it ∈ [CNI_FRONT; CNI_BACK] →
  ∃ frs,
    res (bulk_walk it None listing acc fs) = Ok (acc ++ frs)%list ∧
    length frs = length (walk_entries listing) ∧
    Forall (λ f, is_failure f = true) frs.
Proof.
  intros Hc.
  destruct (bulk_walk_spec it None listing acc fs) as (_ & _ & frs & Hr & Hf).
  exists frs. split; [exact Hr|]. split.
  - symmetry. eapply Forall2_length. exact Hf.
  - eapply Forall2_Forall_r; [exact Hf|]. apply Forall_forall.
    intros [root name] _ f Hx. simpl in Hx.
    destruct (bulk_fragment_cases it None root name fs f Hx)
      as [(e & He & ->)|(cd & o & extra & _ & _ & Hextra & ->)].
    + reflexivity.
    + unfold is_cni_type in Hextra. rewrite bool_decide_eq_true_2 in Hextra by exact Hc.
      destruct Hextra as (l & Hl & _). discriminate.
Qed.

End LoopFacts.

Lemma bulk_loop_identity_without_hint_witness :
  ∃ frs,
    res (@bulk_walk Demo.helpers CNI_BACK None [("/d", ["a.png"; "notes.txt"; "b.JPG"])] []
           {[ "/d/a.png" := File "front"; "/d/b.JPG" := File "back" ]})
      = Ok ([] ++ frs)%list ∧
    length frs = 2%nat ∧
    Forall (λ f, is_failure f = true) frs.
Proof.
  apply (@bulk_loop_identity_without_hint Demo.helpers CNI_BACK
           [("/d", ["a.png"; "notes.txt"; "b.JPG"])] []
           {[ "/d/a.png" := File "front"; "/d/b.JPG" := File "back" ]}).
  by_compute.
Defined.

(** ** The temporary storage is left as it was found *)

Lemma prefix_append (a b : string) : String.prefix a (a ++ b) = true.
Proof.
  induction a as [|c a IH]; simpl; [destruct b; reflexivity|].
  destruct (ascii_dec c c) as [_|Hn]; [exact IH|contradiction].
Qed.

Lemma append_assoc_str (a b c : string) : ((a ++ b) ++ c = a ++ (b ++ c))%string.
Proof.
  induction a as [|x a IH]; [reflexivity|].
  change (String x ((a ++ b) ++ c) = String x (a ++ (b ++ c)))%string.
  rewrite IH. reflexivity.
Qed.

Lemma under_self (d : string) : under d d = true.
Proof. unfold under. rewrite String.eqb_refl. reflexivity. Qed.

(** A relative member name lands below the directory it is extracted to. *)
Lemma os_path_join_under (d name : string) :
  d ≠ "" → PyStr.endswith d "/" = false → String.prefix "/" name = false →
  under d (os_path_join d name) = true.
Proof.
  intros Hd He Hn. unfold os_path_join, under. rewrite Hn, He.
  destruct (String.eqb_spec d "") as [->|_]; [contradiction|]. cbn [orb].
  replace (d ++ "/" ++ name)%string with ((d ++ "/") ++ name)%string
    by apply append_assoc_str.
  rewrite prefix_append. apply orb_true_r.
Qed.

Section StorageFacts.

Context `{Helpers}.

Lemma extracted_frame z d fs p :
  Forall (λ m : string * Node, under d (os_path_join d m.1) = true) (members z) →
  under d p = false →
  extracted z d fs !! p = fs !! p.
Proof.
  unfold extracted. intros Hall Hp. revert fs.
  induction Hall as [|m ms Hm _ IH]; intros fs; simpl; [reflexivity|].
  rewrite IH. apply lookup_insert_ne. intros Heq. rewrite Heq, Hp in Hm. discriminate.
Qed.

Lemma bulk_in_temp_dir_store g zip_bytes it lang acc d fs :
  let r := bulk_in_temp_dir g zip_bytes it lang acc d fs in
  store r = fs ∨ ∃ z, ZipFile zip_bytes = Ok z ∧ store r = extracted z d fs.
Proof.
  cbv zeta. unfold bulk_in_temp_dir, load_global, extractall, walk.
  destruct (bound g "io"); [|run_unfold; simpl; auto].
  destruct (bound g "zipfile"); [|run_unfold; simpl; auto].
  destruct (ZipFile zip_bytes) as [z|e] eqn:Ez; [|run_unfold; simpl; auto].
  right. exists z. split; [reflexivity|].
  destruct (extract_fault z) as [e|] eqn:Ef;
    [run_unfold; simpl; rewrite Ef; reflexivity|].
  destruct (bound g "os");
    [|run_unfold; simpl; rewrite Ef; reflexivity].
  run_unfold; simpl. rewrite Ef; simpl.
  destruct (bulk_walk_spec it lang (os_walk (extracted z d fs) d) acc (extracted z d fs))
    as (Hs & _).
  exact Hs.
Qed.

(** X7 — The bulk processor leaves the temporary storage exactly as it found
    it, whether it returns or raises, provided the scratch directory it is
    given is new (nothing exists at or below its path, which does not end
    with a separator) and the archive's member names are relative, as the
    archive library makes them. *)
Theorem bulk_storage_restored g zip_bytes it lang fs :
  let d := mkdtemp fs in
  (∀ p, under d p = true → fs !! p = None) →
  d ≠ "" → PyStr.endswith d "/" = false →
  (∀ z, ZipFile zip_bytes = Ok z →
        Forall (λ m : string * Node, String.prefix "/" m.1 = false) (members z)) →
  store (run_bulk_ocr_task_sync g zip_bytes it lang fs) = fs.
Proof.
  cbv zeta. intros Hfresh Hd He Hrel. rewrite run_bulk_run.
  destruct (bound g "tempfile"); [|reflexivity]. cbn [store].
  apply map_eq. intros p.
  destruct (under (mkdtemp fs) p) eqn:Hu.
  - rewrite rmtree_clears by exact Hu. symmetry. apply Hfresh, Hu.
  - rewrite rmtree_frame by exact Hu.
    assert (Hne : mkdtemp fs ≠ p).
    { intros <-. rewrite under_self in Hu. discriminate. }
    destruct (bulk_in_temp_dir_store g zip_bytes it lang [] (mkdtemp fs)
                (<[mkdtemp fs := Dir]> fs)) as [Hs|(z & Ez & Hs)];
      cbv zeta in Hs; rewrite Hs.
    + apply lookup_insert_ne, Hne.
    + rewrite extracted_frame; [apply lookup_insert_ne, Hne| |exact Hu].
      eapply Forall_impl; [exact (Hrel z Ez)|].
      intros m Hm. apply os_path_join_under; assumption.
Qed.

(** X8 — A single-document request leaves the temporary storage exactly as
    it found it, whatever the model does, provided the temporary file it is
    given is new and writing the upload to it succeeds. *)
Theorem single_storage_restored g it file lang fs :
  PyStr.endswith (PyStr.lower (filename file)) ".zip" = false →
  let p := mkstemp fs (PyStr.splitext (filename file)).2 in
  fs !! p = None → write_fault p (content file) = None →
  store (ocr_smalter_sync g it file lang fs) = fs.
Proof.
  intros Hz p Hfresh Hw. rewrite ocr_smalter_sync_run.
  destruct (is_cni_type it && negb (truthy lang))%bool; [reflexivity|].
  rewrite Hz. cbn [store]. rewrite single_branch_run. cbv zeta. fold p. rewrite Hw.
  destruct (get_document_creation_date_sync _ _); cbn [store]; [|reflexivity].
  apply delete_insert_id, Hfresh.
Qed.

(** X9 — The endpoint reports every failure as an HTTP error of status 400
    or 500, and 400 only for its two checks: an identity selector without a
    language hint, or an archive upload with a selector that is not eligible
    for bulk processing.  In particular the single-document branch refuses
    no file type: a file the model cannot read ends as a 500. *)
Theorem smalter_statuses g it file lang fs :
  let r := ocr_smalter_sync g it file lang fs in
  match res r with
  | Ok _ => True
  | Raise e => ∃ detail, e = HTTPException 400 detail ∨ e = HTTPException 500 detail
  end ∧
  (∀ detail,
      res r = Raise (HTTPException 400 detail) →
      (it ∈ [CNI_FRONT; CNI_BACK] ∧ lang = None) ∨
      (PyStr.endswith (PyStr.lower (filename file)) ".zip" = true ∧
       it ∉ supported_bulk_types)).
Proof.
  cbv zeta. rewrite ocr_smalter_sync_run.
  destruct (is_cni_type it && negb (truthy lang))%bool eqn:Hv.
  { cbn [res]. split; [eauto|]. intros _ _. left.
    apply andb_true_iff in Hv as [Hc Hl]. split.
    - unfold is_cni_type in Hc. apply bool_decide_eq_true in Hc. exact Hc.
    - destruct lang; [discriminate|reflexivity]. }
  cbn [res].
  destruct (PyStr.endswith (PyStr.lower (filename file)) ".zip").
  - rewrite bulk_branch_run.
    destruct (bool_decide (it ∉ supported_bulk_types)) eqn:Hb; cbn [res].
    + apply bool_decide_eq_true in Hb. split; [eauto|]. intros _ _. right. auto.
    + destruct (res (run_bulk_ocr_task_sync g (content file) it lang fs));
        (split; [eauto|discriminate]).
  - rewrite single_branch_run. cbv zeta.
    destruct (get_document_creation_date_sync _ _); cbn [res];
      [|split; [eauto|discriminate]].
    destruct (write_fault _ _); cbn [res]; [split; [eauto|discriminate]|].
    destruct (ocr_smalter_helper _ _ _ _); [|split; [eauto|discriminate]].
    destruct (is_cni_type it); [destruct lang|]; (split; [eauto|discriminate]).
Qed.

End StorageFacts.

Lemma bulk_storage_restored_witness :
  store (@run_bulk_ocr_task_sync Demo.helpers Demo.globals_with_zipfile "PK!.."
           WORK_CONTRACT None {[ "/tmp/other" := File "kept" ]})
  = {[ "/tmp/other" := File "kept" ]}.
Proof.
  apply (@bulk_storage_restored Demo.helpers Demo.globals_with_zipfile "PK!.."
           WORK_CONTRACT None {[ "/tmp/other" := File "kept" ]}).
  - intros p Hu. apply lookup_singleton_None. intros <-. vm_compute in Hu. discriminate.
  - discriminate.
  - reflexivity.
  - intros z [= <-]. repeat constructor.
Defined.

Lemma single_storage_restored_witness :
  store (@ocr_smalter_sync Demo.helpers module_globals WORK_CONTRACT
           {| filename := "c.pdf"; content := "bad" |} None {[ "/tmp/other" := File "kept" ]})
  = {[ "/tmp/other" := File "kept" ]}.
Proof.
  apply (@single_storage_restored Demo.helpers module_globals WORK_CONTRACT
           {| filename := "c.pdf"; content := "bad" |} None
           {[ "/tmp/other" := File "kept" ]});
    reflexivity.
Defined.

Lemma smalter_statuses_witness :
  PyStr.endswith (PyStr.lower "batch.zip") ".zip" = true ∧
  OTHER_DOCUMENT "resume" ∉ supported_bulk_types.
Proof.
  destruct (@smalter_statuses Demo.helpers module_globals (OTHER_DOCUMENT "resume")
              {| filename := "batch.zip"; content := "PK.." |} None ∅) as [_ H400].
  destruct (H400 "Bulk processing for 'resume' is not supported." eq_refl)
    as [[Hin _]|Hz]; [|exact Hz].
  exfalso. assert (Hc : OTHER_DOCUMENT "resume" ∉ [CNI_FRONT; CNI_BACK]) by by_compute.
  exact (Hc Hin).
Defined.

(** ** The resume endpoint (lines 56 to 79) *)

Section ResumeFacts.

Context `{Helpers}.

(** The runs of the resume endpoint, case by case. *)
Lemma extract_resume_fields_run file fs :
  let name := filename file in
  let file_type := file_type_of (PyStr.splitext name).2 in
  let pre := [EvReadUpload name; EvCreationDate name] in
  let fail (e : Exc) (l : list Event) : Run Response :=
    {| res := Raise (HTTPException 500 (str_exc e)); store := fs; log := l |} in
  extract_resume_fields file fs =
    match get_document_creation_date_sync name (content file) with
    | Raise e => fail e pre
    | Ok creation_date =>
        if String.eqb file_type "PDF"
        then match convert_from_bytes (content file) with
             | Raise e => fail e (pre ++ [EvDecode name])%list
             | Ok [] =>
                 fail (HTTPException 422 "Could not process file into an image.")
                      (pre ++ [EvDecode name])%list
             | Ok (image0 :: _) =>
                 {| res := resume_outcome file_type creation_date image0; store := fs;
                    log := (pre ++ [EvDecode name; EvResumeModel])%list |}
             end
        else if bool_decide (file_type ∈ ["PNG"; "JPG"; "JPEG"])
        then match Image_open_convert (content file) with
             | Raise e => fail e (pre ++ [EvDecode name])%list
             | Ok image0 =>
                 {| res := resume_outcome file_type creation_date image0; store := fs;
                    log := (pre ++ [EvDecode name; EvResumeModel])%list |}
             end
        else fail (HTTPException 415 ("Unsupported file type: " ++ file_type ++ ".")) pre
    end.
Proof.
  cbv zeta. unfold extract_resume_fields, resume_outcome, call_convert_from_bytes,
    call_Image_open, call_ocr_resume.
  run_unfold. simpl.
  destruct (get_document_creation_date_sync _ _) as [cd|e]; simpl; [|reflexivity].
  destruct (String.eqb _ "PDF"); simpl.
  - destruct (convert_from_bytes _) as [[|image0 rest]|e]; simpl; try reflexivity.
    destruct (ocr_resume image0) as [raw|e]; simpl; [|reflexivity].
    destruct (clean_zip_from_resume_entry raw) as [cl|e]; simpl; [|reflexivity].
    destruct (json_loads cl) as [o|e]; simpl; reflexivity.
  - destruct (bool_decide _); simpl; [|reflexivity].
    destruct (Image_open_convert _) as [image0|e]; simpl; [|reflexivity].
    destruct (ocr_resume image0) as [raw|e]; simpl; [|reflexivity].
    destruct (clean_zip_from_resume_entry raw) as [cl|e]; simpl; [|reflexivity].
    destruct (json_loads cl) as [o|e]; simpl; reflexivity.
Qed.

Lemma resume_outcome_ok file_type creation_date image0 body :
  resume_outcome file_type creation_date image0 = Ok (JSONResponse body) →
  ∃ raw cleaned ocr_result,
    ocr_resume image0 = Ok raw ∧ clean_zip_from_resume_entry raw = Ok cleaned ∧
    json_loads cleaned = Ok ocr_result ∧
    body = one_result_envelope "/ocr/resume" file_type creation_date ocr_result.
Proof.
  unfold resume_outcome.
  destruct (ocr_resume image0) as [raw|]; [|discriminate].
  destruct (clean_zip_from_resume_entry raw) as [cl|] eqn:Ec; [|discriminate].
  destruct (json_loads cl) as [o|] eqn:Ej; [|discriminate].
  intros [= <-]. eauto 10.
Qed.

Lemma resume_types_dispatch (file_type : string) :
  file_type ∈ resume_types ↔
  String.eqb file_type "PDF" = true ∨ file_type ∈ ["PNG"; "JPG"; "JPEG"].
Proof.
  unfold resume_types. rewrite String.eqb_eq, elem_of_cons. tauto.
Qed.

(** X10 — A successful resume answer: the file type is one of PDF, PNG, JPG
    and JPEG (in any letter case in the name), the metadata has exactly the
    endpoint's path, that tag and the creation date the metadata helper gave,
    and [details] holds exactly one element, the parsed model output. *)
Theorem resume_success_envelope file fs body :
  res (extract_resume_fields file fs) = Ok (JSONResponse body) →
  let file_type := file_type_of (PyStr.splitext (filename file)).2 in
  file_type ∈ resume_types ∧
  ∃ creation_date cleaned ocr_result,
    get_document_creation_date_sync (filename file) (content file) = Ok creation_date ∧
    json_loads cleaned = Ok ocr_result ∧
    fragment_metadata body =
      Some [("file_url", JStr "/ocr/resume"); ("file_type", JStr file_type);
            ("file_creation_date", JStr creation_date)] ∧
    fragment_details body = Some (JList [ocr_result]).
Proof.
  rewrite extract_resume_fields_run. cbv zeta.
  destruct (get_document_creation_date_sync _ _) as [cd|e] eqn:Ecd; [|discriminate].
  rewrite resume_types_dispatch.
  destruct (String.eqb _ "PDF") eqn:Ep.
  - destruct (convert_from_bytes _) as [[|image0 rest]|e]; try discriminate. cbn [res].
    intros Hr. destruct (resume_outcome_ok _ _ _ _ Hr) as (raw & cl & o & _ & _ & Hj & ->).
    split; [auto|]. exists cd, cl, o. auto.
  - destruct (bool_decide _) eqn:Eb; [|discriminate].
    apply bool_decide_eq_true in Eb.
    destruct (Image_open_convert _) as [image0|e]; [|discriminate]. cbn [res].
    intros Hr. destruct (resume_outcome_ok _ _ _ _ Hr) as (raw & cl & o & _ & _ & Hj & ->).
    split; [auto|]. exists cd, cl, o. auto.
Qed.

(** X11 — Of a PDF only the first page is read: when the converter returns
    several pages, the answer is the one the first page alone determines;
    the other pages are dropped without notice. *)
Theorem resume_first_page_only file fs creation_date image0 rest :
  get_document_creation_date_sync (filename file) (content file) = Ok creation_date →
  file_type_of (PyStr.splitext (filename file)).2 = "PDF" →
  convert_from_bytes (content file) = Ok (image0 :: rest) →
  let r := extract_resume_fields file fs in
  res r = resume_outcome "PDF" creation_date image0 ∧
  length (filter (λ e, e = EvResumeModel) (log r)) = 1%nat.
Proof.
  intros Hcd Hft Hconv. cbv zeta. rewrite extract_resume_fields_run. cbv zeta.
  rewrite Hcd, Hft, Hconv. split; reflexivity.
Qed.

(** X12 — The resume endpoint never touches the temporary storage and calls
    the model at most once; for a file type it does not accept it has asked
    for the creation date but has decoded nothing and has not called the
    model. *)
Theorem resume_effects file fs :
  let r := extract_resume_fields file fs in
  let name := filename file in
  store r = fs ∧
  Forall (λ e, storage_event e = false) (log r) ∧
  (length (filter (λ e, e = EvResumeModel) (log r)) ≤ 1)%nat ∧
  (file_type_of (PyStr.splitext name).2 ∉ resume_types →
     log r = [EvReadUpload name; EvCreationDate name]).
Proof.
  cbv zeta. rewrite extract_resume_fields_run. cbv zeta.
  rewrite resume_types_dispatch.
  destruct (get_document_creation_date_sync _ _) as [cd|e]; cbn [store log].
  2: { split_and!; [reflexivity|repeat constructor|simpl; lia|reflexivity]. }
  destruct (String.eqb _ "PDF") eqn:Ep.
  - destruct (convert_from_bytes _) as [[|image0 rest]|e]; cbn [store log];
      (split_and!; [reflexivity|repeat constructor|simpl; lia|]);
      intros Hn; exfalso; apply Hn; auto.
  - destruct (bool_decide _) eqn:Eb.
    + apply bool_decide_eq_true in Eb.
      destruct (Image_open_convert _) as [image0|e]; cbn [store log];
        (split_and!; [reflexivity|repeat constructor|simpl; lia|]);
        intros Hn; exfalso; apply Hn; auto.
    + cbn [store log]. split_and!; [reflexivity|repeat constructor|simpl; lia|reflexivity].
Qed.

End ResumeFacts.

Lemma resume_success_envelope_witness :
  "PNG" ∈ resume_types ∧
  ∃ creation_date cleaned ocr_result,
    @get_document_creation_date_sync Demo.helpers "cv.Png" "scan" = Ok creation_date ∧
    @json_loads Demo.helpers cleaned = Ok ocr_result ∧
    fragment_metadata (one_result_envelope "/ocr/resume" "PNG" "2024-01-01" (JDict [])) =
      Some [("file_url", JStr "/ocr/resume"); ("file_type", JStr "PNG");
            ("file_creation_date", JStr creation_date)] ∧
    fragment_details (one_result_envelope "/ocr/resume" "PNG" "2024-01-01" (JDict []))
      = Some (JList [ocr_result]).
Proof.
  apply (@resume_success_envelope Demo.helpers {| filename := "cv.Png"; content := "scan" |} ∅).
  vm_compute. reflexivity.
Defined.

Lemma resume_first_page_only_witness :
  let r := @extract_resume_fields demo_two_pages
             {| filename := "cv.pdf"; content := "scan" |} ∅ in
  res r = Ok (JSONResponse
                (one_result_envelope "/ocr/resume" "PDF" "2024-01-01" (JStr "scan page 1"))) ∧
  length (filter (λ e, e = EvResumeModel) (log r)) = 1%nat.
Proof.
  exact (@resume_first_page_only demo_two_pages {| filename := "cv.pdf"; content := "scan" |}
           ∅ "2024-01-01" (PILImage "scan page 1") [PILImage "scan page 2"]
           eq_refl eq_refl eq_refl).
Defined.

Lemma resume_effects_witness :
  log (@extract_resume_fields Demo.helpers {| filename := "notes.txt"; content := "memo" |} ∅)
  = [EvReadUpload "notes.txt"; EvCreationDate "notes.txt"].
Proof.
  destruct (@resume_effects Demo.helpers {| filename := "notes.txt"; content := "memo" |} ∅)
    as (_ & _ & _ & Hlog).
  apply Hlog. by_compute.
Defined.

(** ** The eilify endpoint (lines 136 to 154) *)

Section EilifyFacts.

Context `{Helpers} `{EilifyHelpers}.

(** The runs of the eilify endpoint, case by case. *)
Lemma elify_ocr_run image fs :
  let name := filename image in
  let file_type := file_type_of (PyStr.splitext name).2 in
  let fail (e : Exc) (l : list Event) : Run Response :=
    {| res := Raise (HTTPException 500 ("Error: " ++ str_exc e)); store := fs; log := l |} in
  elify_ocr image fs =
    match get_document_creation_date_sync name (content image) with
    | Raise e => fail e [EvReadUpload name; EvCreationDate name]
    | Ok creation_date =>
        match Image_open_convert (content image) with
        | Raise e => fail e [EvReadUpload name; EvCreationDate name; EvDecode name]
        | Ok image_pil =>
            {| res := elify_outcome file_type creation_date image_pil; store := fs;
               log := [EvReadUpload name; EvCreationDate name; EvDecode name;
                       EvModel name] |}
        end
    end.
Proof.
  cbv zeta. unfold elify_ocr, try_except.
  match goal with
  | |- context [res (?m fs)] => assert (Hm : m fs =
      match get_document_creation_date_sync (filename image) (content image) with
      | Raise e =>
          {| res := Raise e; store := fs;
             log := [EvReadUpload (filename image); EvCreationDate (filename image)] |}
      | Ok creation_date =>
          match Image_open_convert (content image) with
          | Raise e =>
              {| res := Raise e; store := fs;
                 log := [EvReadUpload (filename image); EvCreationDate (filename image);
                         EvDecode (filename image)] |}
          | Ok image_pil =>
              {| res :=
                   match ocr_eilify image_pil with
                   | Raise e => Raise e
                   | Ok output_text =>
                       match clean_json_output output_text with
                       | Raise e => Raise e
                       | Ok ocr_result =>
                           Ok (JSONResponse
                                 (one_result_envelope "/ocr/eilify"
                                    (file_type_of (PyStr.splitext (filename image)).2)
                                    creation_date ocr_result))
                       end
                   end;
                 store := fs;
                 log := [EvReadUpload (filename image); EvCreationDate (filename image);
                         EvDecode (filename image); EvModel (filename image)] |}
          end
      end)
  end.
  { unfold file_read, call_creation_date, call_Image_open, call_ocr_eilify.
    run_steps.
    destruct (get_document_creation_date_sync _ _) as [cd|e]; [|reflexivity].
    run_steps.
    destruct (Image_open_convert _) as [image_pil|e]; [|reflexivity].
    run_steps.
    destruct (ocr_eilify image_pil) as [out|e]; [|reflexivity].
    run_steps.
    destruct (clean_json_output out) as [o|e]; reflexivity. }
  rewrite Hm. unfold elify_outcome.
  destruct (get_document_creation_date_sync _ _) as [cd|e]; [|reflexivity].
  destruct (Image_open_convert _) as [image_pil|e]; [|reflexivity]. cbn [res store log].
  destruct (ocr_eilify image_pil) as [out|e]; [|reflexivity].
  destruct (clean_json_output out) as [o|e]; reflexivity.
Qed.

(** X13 — The eilify endpoint has no file-type check: whatever the name of
    the upload, once the creation date is known the bytes are handed to the
    image decoder; every failure, the decoder's included, is a status 500
    whose detail starts with [Error: ]; the temporary storage is never
    touched. *)
Theorem elify_no_type_check image fs :
  let r := elify_ocr image fs in
  let name := filename image in
  match res r with
  | Ok _ => True
  | Raise e => ∃ cause, e = HTTPException 500 ("Error: " ++ str_exc cause)
  end ∧
  store r = fs ∧
  (∀ creation_date,
      get_document_creation_date_sync name (content image) = Ok creation_date →
      EvDecode name ∈ log r).
Proof.
  cbv zeta. rewrite elify_ocr_run. cbv zeta. unfold elify_outcome.
  destruct (get_document_creation_date_sync _ _) as [cd|e]; cbn [res store log].
  2: { split_and!; [eauto|reflexivity|discriminate]. }
  destruct (Image_open_convert _) as [image_pil|e]; cbn [res store log].
  - split_and!.
    + destruct (ocr_eilify image_pil) as [out|e]; [|eauto].
      destruct (clean_json_output out) as [o|e]; [exact I|eauto].
    + reflexivity.
    + intros _ _. rewrite !elem_of_cons. auto.
  - split_and!; [eauto|reflexivity|].
    intros _ _. rewrite !elem_of_cons. auto.
Qed.

(** X14 — A successful eilify answer carries the endpoint's path, a
    file-type tag, the creation date the metadata helper gave, and exactly
    one element in [details], the cleaned model output; for an ASCII name the
    tag is the one derived from the name, whatever it is ([UNKNOWN] for a
    name without extension). *)
Theorem elify_success_envelope image fs body :
  res (elify_ocr image fs) = Ok (JSONResponse body) →
  ∃ file_type creation_date output_text ocr_result,
    get_document_creation_date_sync (filename image) (content image) = Ok creation_date ∧
    clean_json_output output_text = Ok ocr_result ∧
    body = one_result_envelope "/ocr/eilify" file_type creation_date ocr_result ∧
    (is_ascii (filename image) = true →
     file_type = file_type_of (PyStr.splitext (filename image)).2).
Proof.
  rewrite elify_ocr_run. cbv zeta. unfold elify_outcome.
  destruct (get_document_creation_date_sync _ _) as [cd|e]; [|discriminate].
  destruct (Image_open_convert _) as [image_pil|e]; [|discriminate]. cbn [res].
  destruct (ocr_eilify image_pil) as [out|e]; [|discriminate].
  destruct (clean_json_output out) as [o|e] eqn:Eo; [|discriminate].
  intros [= <-]. eauto 10.
Qed.

End EilifyFacts.

Lemma elify_no_type_check_witness :
  EvDecode "notes"
    ∈ log (@elify_ocr Demo.helpers demo_eilify {| filename := "notes"; content := "memo" |} ∅).
Proof.
  destruct (@elify_no_type_check Demo.helpers demo_eilify
              {| filename := "notes"; content := "memo" |} ∅) as (_ & _ & Hdec).
  apply (Hdec "2024-01-01"). reflexivity.
Defined.

Lemma elify_success_envelope_witness :
  ∃ file_type creation_date output_text ocr_result,
    @get_document_creation_date_sync Demo.helpers "notes" "memo" = Ok creation_date ∧
    @clean_json_output demo_eilify output_text = Ok ocr_result ∧
    one_result_envelope "/ocr/eilify" "UNKNOWN" "2024-01-01" (JStr "memo")
      = one_result_envelope "/ocr/eilify" file_type creation_date ocr_result ∧
    (is_ascii "notes" = true → file_type = file_type_of (PyStr.splitext "notes").2).
Proof.
  apply (@elify_success_envelope Demo.helpers demo_eilify
           {| filename := "notes"; content := "memo" |} ∅).
  vm_compute. reflexivity.
Defined.

(** ** The Streamlit script *)

Section ScriptFacts.

Import OllamaApp.

Variable load_dotenv : gmap string string → gmap string string.
Variable chain_invoke : list (string * string) → result string.

(** X15 — The script cannot start unless both [LANGCHAIN_API_KEY] and
    [LANGCHAIN_PROJECT] are set once the environment file is loaded: with
    either missing it stops on a [TypeError] before the page is drawn and
    before the chain is built or invoked; when only the project is missing,
    tracing has already been switched on in the environment. *)
Theorem script_requires_both_variables env0 user_input :
  let env := load_dotenv env0 in
  let r := script load_dotenv chain_invoke env0 user_input in
  (env !! "LANGCHAIN_API_KEY" = None ∨ env !! "LANGCHAIN_PROJECT" = None →
     outcome r = Raise (PyError "TypeError" "str expected, not NoneType") ∧ ui r = []) ∧
  (env !! "LANGCHAIN_API_KEY" = None → environ r = env) ∧
  (is_Some (env !! "LANGCHAIN_API_KEY") → env !! "LANGCHAIN_PROJECT" = None →
     environ r = <["LANGCHAIN_TRACING_V2" := "true"]> env).
Proof.
  cbv zeta. unfold script, environ_set.
  destruct (load_dotenv env0 !! "LANGCHAIN_API_KEY") as [k|] eqn:Ek.
  - rewrite lookup_insert_ne by discriminate. rewrite lookup_insert_ne by discriminate.
    rewrite (insert_id _ _ _ Ek).
    split_and!.
    + intros [Hk|Hp]; [discriminate|]. rewrite Hp. auto.
    + discriminate.
    + intros _ Hp. rewrite Hp. reflexivity.
  - split_and!; [auto|reflexivity|]. intros [x Hx]. discriminate.
Qed.

(** X16 — With both variables set the script leaves them as they are and
    switches tracing on, always draws the title, and invokes the chain
    exactly when the text box is not empty, with the text as the question:
    on an empty box nothing is asked and nothing written; otherwise the
    chain's answer is written, or its exception ends the run. *)
Theorem script_when_configured env0 user_input key project :
  let env := load_dotenv env0 in
  let r := script load_dotenv chain_invoke env0 user_input in
  let input := [("question", user_input)] in
  env !! "LANGCHAIN_API_KEY" = Some key → env !! "LANGCHAIN_PROJECT" = Some project →
  environ r = <["LANGCHAIN_TRACING_V2" := "true"]> env ∧
  (user_input = "" → outcome r = Ok tt ∧ ui r = [StTitle title]) ∧
  (user_input ≠ "" →
     match chain_invoke input with
     | Ok response =>
         outcome r = Ok tt ∧ ui r = [StTitle title; ChainInvoke input; StWrite response]
     | Raise e =>
         outcome r = Raise e ∧ ui r = [StTitle title; ChainInvoke input]
     end).
Proof.
  cbv zeta. intros Hk Hp. unfold script, environ_set. rewrite Hk.
  rewrite lookup_insert_ne by discriminate. rewrite lookup_insert_ne by discriminate.
  rewrite Hp. rewrite (insert_id _ _ _ Hk).
  assert (He : <["LANGCHAIN_PROJECT" := project]>
                 (<["LANGCHAIN_TRACING_V2" := "true"]> (load_dotenv env0))
               = <["LANGCHAIN_TRACING_V2" := "true"]> (load_dotenv env0)).
  { apply insert_id. rewrite lookup_insert_ne by discriminate. exact Hp. }
  rewrite He.
  destruct (String.eqb_spec user_input "") as [->|Hne].
  - split_and!; [reflexivity|auto|]. intros Hn. contradiction.
  - destruct (chain_invoke [("question", user_input)]) as [response|e];
      (split_and!; [reflexivity|intros ->; contradiction|auto]).
Qed.

End ScriptFacts.

Lemma script_requires_both_variables_witness :
  let r := OllamaApp.script (λ env, env) (λ _, Ok "answer")
             {[ "LANGCHAIN_API_KEY" := "key" ]} "What is a chain?" in
  OllamaApp.outcome r = Raise (PyError "TypeError" "str expected, not NoneType") ∧
  OllamaApp.ui r = [] ∧
  OllamaApp.environ r
    = <["LANGCHAIN_TRACING_V2" := "true"]> {[ "LANGCHAIN_API_KEY" := "key" ]}.
Proof.
  destruct (script_requires_both_variables (λ env, env) (λ _, Ok "answer")
              {[ "LANGCHAIN_API_KEY" := "key" ]} "What is a chain?")
    as (Hstop & _ & Henv).
  assert (Hp : ({[ "LANGCHAIN_API_KEY" := "key" ]} : gmap string string)
                 !! "LANGCHAIN_PROJECT" = None) by (vm_compute; reflexivity).
  assert (Hk : is_Some (({[ "LANGCHAIN_API_KEY" := "key" ]} : gmap string string)
                          !! "LANGCHAIN_API_KEY")) by (eexists; vm_compute; reflexivity).
  destruct Hstop as [Ho Hu]; [right; exact Hp|].
  split_and!; [exact Ho|exact Hu|exact (Henv Hk Hp)].
Defined.

Lemma script_when_configured_witness :
  let env : gmap string string :=
    {[ "LANGCHAIN_API_KEY" := "key"; "LANGCHAIN_PROJECT" := "demo" ]} in
  OllamaApp.ui (OllamaApp.script (λ e, e) (λ _, Ok "answer") env "")
    = [OllamaApp.StTitle OllamaApp.title] ∧
  OllamaApp.ui (OllamaApp.script (λ e, e) (λ _, Ok "answer") env "Why?")
    = [OllamaApp.StTitle OllamaApp.title;
       OllamaApp.ChainInvoke [("question", "Why?")];
       OllamaApp.StWrite "answer"].
Proof.
  cbv zeta.
  assert (Hk : ({[ "LANGCHAIN_API_KEY" := "key"; "LANGCHAIN_PROJECT" := "demo" ]}
                  : gmap string string) !! "LANGCHAIN_API_KEY" = Some "key")
    by (vm_compute; reflexivity).
  assert (Hp : ({[ "LANGCHAIN_API_KEY" := "key"; "LANGCHAIN_PROJECT" := "demo" ]}
                  : gmap string string) !! "LANGCHAIN_PROJECT" = Some "demo")
    by (vm_compute; reflexivity).
  split.
  - destruct (script_when_configured (λ e, e) (λ _, Ok "answer")
                {[ "LANGCHAIN_API_KEY" := "key"; "LANGCHAIN_PROJECT" := "demo" ]} ""
                "key" "demo" Hk Hp) as (_ & Hempty & _).
    apply Hempty. reflexivity.
  - destruct (script_when_configured (λ e, e) (λ _, Ok "answer")
                {[ "LANGCHAIN_API_KEY" := "key"; "LANGCHAIN_PROJECT" := "demo" ]} "Why?"
                "key" "demo" Hk Hp) as (_ & _ & Hask).
    apply Hask. discriminate.
Defined.

(** ** The tag of a supported entry *)

Lemma append_cons (c : ascii) (s t : string) : (String c s ++ t = String c (s ++ t))%string.
Proof. reflexivity. Qed.

Lemma append_nil_l (t : string) : ("" ++ t = t)%string.
Proof. reflexivity. Qed.

Lemma length_append (a b : string) :
  String.length (a ++ b) = (String.length a + String.length b)%nat.
Proof.
  induction a as [|c a IH]; [reflexivity|]. rewrite append_cons. simpl. rewrite IH. reflexivity.
Qed.

Lemma length_lower (s : string) : String.length (PyStr.lower s) = String.length s.
Proof. induction s as [|c s IH]; simpl; [reflexivity|]. rewrite IH. reflexivity. Qed.

Lemma substring_full (s : string) : String.substring 0 (String.length s) s = s.
Proof. induction s as [|c s IH]; simpl; [reflexivity|]. rewrite IH. reflexivity. Qed.

Lemma substring_skip_app (a b : string) (m : nat) :
  String.substring (String.length a) m (a ++ b) = String.substring 0 m b.
Proof.
  induction a as [|c a IH]; [reflexivity|]. rewrite append_cons. simpl. exact IH.
Qed.

Lemma substring_split (s : string) (m : nat) :
  (m ≤ String.length s)%nat →
  s = (String.substring 0 m s ++ String.substring m (String.length s - m) s)%string.
Proof.
  revert m. induction s as [|c s IH]; intros [|m] Hm; simpl in *; try lia.
  - reflexivity.
  - rewrite append_nil_l, substring_full. reflexivity.
  - rewrite append_cons. f_equal. apply IH. lia.
Qed.

Lemma lower_substring (n m : nat) (s : string) :
  PyStr.lower (String.substring n m s) = String.substring n m (PyStr.lower s).
Proof.
  revert n m. induction s as [|c s IH]; intros [|n] [|m]; simpl; try reflexivity.
  - rewrite IH. reflexivity.
  - apply IH.
  - apply IH.
Qed.

Lemma lower_eq_cons (s : string) (a : ascii) (t : string) :
  PyStr.lower s = String a t →
  ∃ c r, s = String c r ∧ PyStr.lower_char c = a ∧ PyStr.lower r = t.
Proof. destruct s as [|c r]; simpl; [discriminate|]. intros [= <- <-]. eauto. Qed.

Lemma has_char_lower_dot (s : string) : has_char "." (PyStr.lower s) = has_char "." s.
Proof. induction s as [|c s IH]; simpl; [reflexivity|]. rewrite lower_char_dot, IH. reflexivity. Qed.

Lemma has_char_lower_slash (s : string) : has_char "/" (PyStr.lower s) = has_char "/" s.
Proof. induction s as [|c s IH]; simpl; [reflexivity|]. rewrite lower_char_slash, IH. reflexivity. Qed.

Lemma has_char_append (c : ascii) (a b : string) :
  has_char c (a ++ b) = (has_char c a || has_char c b)%bool.
Proof.
  induction a as [|x a IH]; [reflexivity|]. rewrite append_cons. simpl. rewrite IH.
  apply orb_assoc.
Qed.

Lemma rfind_from_app (c : ascii) (s1 s2 : string) (i found : Z) :
  PyStr.rfind_from c (s1 ++ s2) i found =
  PyStr.rfind_from c s2 (i + Z.of_nat (String.length s1)) (PyStr.rfind_from c s1 i found).
Proof.
  revert i found. induction s1 as [|a s1 IH]; intros i found.
  - rewrite append_nil_l. simpl. rewrite Z.add_0_r. reflexivity.
  - rewrite append_cons. simpl PyStr.rfind_from. rewrite IH. f_equal. simpl String.length. lia.
Qed.

Lemma rfind_from_absent (c : ascii) (s : string) (i found : Z) :
  has_char c s = false → PyStr.rfind_from c s i found = found.
Proof.
  revert i found. induction s as [|a s IH]; intros i found Hs; simpl in *; [reflexivity|].
  apply orb_false_iff in Hs as [Ha Hs]. rewrite Ha. apply IH, Hs.
Qed.

Lemma rfind_from_bound (c : ascii) (s : string) (i found : Z) :
  found < i → PyStr.rfind_from c s i found < i + Z.of_nat (String.length s).
Proof.
  revert i found. induction s as [|a s IH]; intros i found Hf; simpl PyStr.rfind_from.
  - simpl. lia.
  - simpl String.length.
    assert (Hs : (if Ascii.eqb a c then i else found) < i + 1)
      by (destruct (Ascii.eqb a c); lia).
    pose proof (IH (i + 1) _ Hs). lia.
Qed.

Lemma splitext_scan_cases (p : string) (dotIndex i : Z) (steps : nat) :
  PyStr.splitext_scan p dotIndex i steps = (p, "") ∨
  PyStr.splitext_scan p dotIndex i steps = (PyStr.take dotIndex p, PyStr.drop dotIndex p).
Proof.
  revert i. induction steps as [|steps IH]; intros i; simpl; [auto|].
  destruct (bool_decide _); [apply IH|auto].
Qed.

Lemma drop_app (pre suf : string) :
  PyStr.drop (Z.of_nat (String.length pre)) (pre ++ suf) = suf.
Proof.
  unfold PyStr.drop. rewrite Nat2Z.id, length_append, substring_skip_app.
  replace (String.length pre + String.length suf - String.length pre)%nat
    with (String.length suf) by lia.
  apply substring_full.
Qed.

(** The extension of a name that ends with a dot and dot-free, slash-free
    characters is that ending, or nothing when only dots precede it in the
    last component. *)
Lemma prefix_one (a c : ascii) (x : string) :
  String.prefix (String a "") (String c x) = Ascii.eqb a c.
Proof.
  simpl. destruct (ascii_dec a c) as [->|Hn].
  - rewrite Ascii.eqb_refl. destruct x; reflexivity.
  - symmetry. apply Ascii.eqb_neq, Hn.
Qed.

Lemma splitext_of_ending (pre r : string) :
  has_char "." r = false → has_char "/" r = false →
  let ext := (PyStr.splitext (pre ++ String "." r)).2 in
  (ext = "" ∨ ext = String "." r) ∧
  (has_char "/" pre = false → String.prefix "." (pre ++ String "." r) = false →
   ext = String "." r).
Proof.
  intros Hd Hs. cbv zeta.
  assert (Hdot : PyStr.rfind "." (pre ++ String "." r) = Z.of_nat (String.length pre)).
  { unfold PyStr.rfind. rewrite rfind_from_app.
    change (PyStr.rfind_from "." (String "." r) ?i ?f)
      with (PyStr.rfind_from "." r (i + 1) i).
    rewrite rfind_from_absent by exact Hd. lia. }
  assert (Hsep : PyStr.rfind "/" (pre ++ String "." r) = PyStr.rfind "/" pre).
  { unfold PyStr.rfind. rewrite rfind_from_app.
    change (PyStr.rfind_from "/" (String "." r) ?i ?f)
      with (PyStr.rfind_from "/" r (i + 1) f).
    apply rfind_from_absent, Hs. }
  assert (Hb : PyStr.rfind "/" pre < Z.of_nat (String.length pre)).
  { pose proof (rfind_from_bound "/" pre 0 (-1) ltac:(lia)) as Hb.
    unfold PyStr.rfind. lia. }
  unfold PyStr.splitext. rewrite Hdot, Hsep.
  destruct (Z.ltb_spec (PyStr.rfind "/" pre) (Z.of_nat (String.length pre)))
    as [_|Hge]; [|lia].
  split.
  - destruct (splitext_scan_cases (pre ++ String "." r) (Z.of_nat (String.length pre))
                (PyStr.rfind "/" pre + 1)
                (Z.to_nat (Z.of_nat (String.length pre) - (PyStr.rfind "/" pre + 1))))
      as [E|E]; rewrite E; cbn [snd]; [auto|]. right. apply drop_app.
  - intros Hp Hh.
    assert (Hm1 : PyStr.rfind "/" pre = -1)
      by (unfold PyStr.rfind; apply rfind_from_absent, Hp).
    rewrite Hm1.
    destruct pre as [|c pre].
    + rewrite append_nil_l, prefix_one in Hh. discriminate.
    + assert (Hc : c ≠ "."%char).
      { intros ->. rewrite append_cons, prefix_one in Hh. discriminate. }
      replace (Z.to_nat (Z.of_nat (String.length (String c pre)) - (-1 + 1)))
        with (S (String.length pre)) by (simpl String.length; lia).
      cbn [PyStr.splitext_scan].
      assert (Hch : PyStr.char_at (String c pre ++ String "." r) (-1 + 1) = Some c)
        by reflexivity.
      rewrite Hch.
      rewrite bool_decide_eq_false_2 by (intros [= ->]; contradiction).
      cbn [snd]. apply (drop_app (String c pre)).
Qed.

Lemma endswith_split (s suf : string) :
  PyStr.endswith (PyStr.lower s) suf = true →
  ∃ pre ending, s = (pre ++ ending)%string ∧ PyStr.lower ending = suf.
Proof.
  unfold PyStr.endswith. rewrite length_lower. intros Hs.
  apply andb_true_iff in Hs as [Hk He].
  apply Nat.leb_le in Hk. apply String.eqb_eq in He.
  exists (String.substring 0 (String.length s - String.length suf) s),
         (String.substring (String.length s - String.length suf) (String.length suf) s).
  split.
  - rewrite (substring_split s (String.length s - String.length suf)) at 1 by lia.
    do 2 f_equal. lia.
  - rewrite lower_substring. exact He.
Qed.

(** The tag of a name whose lowered form ends with [.] and the lowercase
    letters [t], none of them a dot or a slash. *)
Lemma tag_of_ending (name t : string) :
  PyStr.endswith (PyStr.lower name) (String "." t) = true →
  has_char "." t = false → has_char "/" t = false →
  let tag := file_type_of (PyStr.splitext name).2 in
  (tag = "UNKNOWN" ∨ tag = file_type_of (String "." t)) ∧
  (has_char "/" name = false → String.prefix "." name = false →
   tag = file_type_of (String "." t)).
Proof.
  intros He Hd Hs. cbv zeta.
  destruct (endswith_split name _ He) as (pre & ending & -> & Hl).
  destruct (lower_eq_cons ending _ _ Hl) as (c & r & -> & Hc & Hr).
  assert (c = "."%char) as ->.
  { pose proof (lower_char_dot c) as Hx. rewrite Hc in Hx. simpl in Hx.
    symmetry in Hx. apply Ascii.eqb_eq in Hx. exact Hx. }
  assert (Hd' : has_char "." r = false) by (rewrite <- has_char_lower_dot, Hr; exact Hd).
  assert (Hs' : has_char "/" r = false) by (rewrite <- has_char_lower_slash, Hr; exact Hs).
  assert (Htag : file_type_of (String "." r) = file_type_of (String "." t)).
  { rewrite <- (file_type_of_lower (String "." r)).
    simpl PyStr.lower. rewrite Hr. reflexivity. }
  destruct (splitext_of_ending pre r Hd' Hs') as [Hcases Hplain]. split.
  - destruct Hcases as [E|E]; rewrite E; [left; reflexivity|right; exact Htag].
  - intros Hn Hp. rewrite Hplain; [exact Htag| |exact Hp].
    rewrite has_char_append in Hn. apply orb_false_iff in Hn as [Hn _]. exact Hn.
Qed.

(** X17 — Every entry the bulk loop processes gets one of the tags PNG, JPG,
    JPEG and PDF, or [UNKNOWN]; for a name without a slash, as [os.walk]
    gives them, [UNKNOWN] is possible only when the name starts with a dot
    (a file named [.png] is processed, tagged [UNKNOWN]). *)
Theorem supported_entry_tag (name : string) :
  supported name = true →
  let tag := file_type_of (PyStr.splitext name).2 in
  tag ∈ ["PNG"; "JPG"; "JPEG"; "PDF"; "UNKNOWN"] ∧
  (has_char "/" name = false → String.prefix "." name = false →
   tag ∈ ["PNG"; "JPG"; "JPEG"; "PDF"]).
Proof.
  intros Hs. cbv zeta.
  assert (Hcase : ∃ t, t ∈ ["png"; "jpg"; "jpeg"; "pdf"] ∧
                       PyStr.endswith (PyStr.lower name) (String "." t) = true).
  { unfold supported, PyStr.endswith_any, supported_extensions in Hs.
    cbn [existsb] in Hs.
    repeat (apply orb_true_iff in Hs as [Hs|Hs]); try discriminate;
      eexists; (split; [|exact Hs]); by_compute. }
  destruct Hcase as (t & Ht & He).
  assert (Hclean : has_char "." t = false ∧ has_char "/" t = false ∧
                   file_type_of (String "." t) ∈ ["PNG"; "JPG"; "JPEG"; "PDF"]).
  { rewrite !elem_of_cons, elem_of_nil in Ht.
    destruct Ht as [->|[->|[->|[->|[]]]]]; (split_and!; [reflexivity|reflexivity|by_compute]). }
  destruct Hclean as (Hd & Hsl & Hfour).
  destruct (tag_of_ending name t He Hd Hsl) as [Hcases Hplain]. split.
  - destruct Hcases as [Hu|Htag].
    + rewrite Hu. by_compute.
    + rewrite Htag. rewrite !elem_of_cons in Hfour. rewrite !elem_of_cons. tauto.
  - intros Hn Hp. rewrite (Hplain Hn Hp). exact Hfour.
Qed.

Lemma supported_entry_tag_witness :
  file_type_of (PyStr.splitext "Scan.JPeg").2 ∈ ["PNG"; "JPG"; "JPEG"; "PDF"] ∧
  supported ".png" = true ∧ file_type_of (PyStr.splitext ".png").2 = "UNKNOWN".
Proof.
  split; [|split; reflexivity].
  apply (supported_entry_tag "Scan.JPeg"); reflexivity.
Defined.

(** ** A failed write to the temporary file *)

(** X18 — The temporary file of a single-document request is removed only
    around the model call: when writing the upload to it fails, the request
    ends with status 500 carrying the write error, the model is not called,
    nothing is removed, and the empty file stays in the temporary storage. *)
Theorem write_fault_leaves_temp_file `{Helpers} g it file lang fs creation_date e :
  (is_cni_type it && negb (truthy lang))%bool = false →
  PyStr.endswith (PyStr.lower (filename file)) ".zip" = false →
  get_document_creation_date_sync (filename file) (content file) = Ok creation_date →
  let p := mkstemp fs (PyStr.splitext (filename file)).2 in
  write_fault p (content file) = Some e →
  let r := ocr_smalter_sync g it file lang fs in
  res r = Raise (HTTPException 500 (str_exc e)) ∧
  store r = <[p := File ""]> fs ∧
  log r = [EvReadUpload (filename file); EvCreationDate (filename file);
           EvMkstemp p; EvWrite p].
Proof.
  intros Hv Hz Hcd p Hw. cbv zeta. rewrite ocr_smalter_sync_run, Hv, Hz.
  cbn [res store log]. rewrite single_branch_run. cbv zeta. rewrite Hcd. fold p.
  rewrite Hw. cbn [res store log]. auto.
Qed.

Lemma write_fault_leaves_temp_file_witness :
  let r := @ocr_smalter_sync demo_disk_full module_globals WORK_CONTRACT
             {| filename := "c.pdf"; content := "pages" |} None ∅ in
  res r = Raise (HTTPException 500 "[Errno 28] No space left on device") ∧
  store r = <["/tmp/tmpfile.pdf" := File ""]> ∅ ∧
  log r = [EvReadUpload "c.pdf"; EvCreationDate "c.pdf";
           EvMkstemp "/tmp/tmpfile.pdf"; EvWrite "/tmp/tmpfile.pdf"].
Proof.
  apply (@write_fault_leaves_temp_file demo_disk_full module_globals WORK_CONTRACT
           {| filename := "c.pdf"; content := "pages" |} None ∅ "2024-01-01"
           (PyError "OSError" "[Errno 28] No space left on device"));
    reflexivity.
Defined.

(** ** The dispatch on explicit requests *)

Lemma mode_dispatch_witness :
  (let r := @ocr_smalter_sync Demo.helpers module_globals WORK_CONTRACT
              {| filename := "Report.ZIP"; content := "plain text" |} None ∅ in
   Forall (λ e, single_only_event e = false) (log r) ∧
   ∃ rest, log r = EvReadUpload "Report.ZIP" :: EvMkdtemp "/tmp/tmpdir" :: rest) ∧
  (let r := @ocr_smalter_sync Demo.helpers Demo.globals_with_zipfile WORK_CONTRACT
              {| filename := "scan.png"; content := "PK.." |} None ∅ in
   Forall (λ e, bulk_only_event e = false) (log r) ∧
   ∃ rest, log r = EvReadUpload "scan.png" :: EvCreationDate "scan.png" :: rest).
Proof.
  split.
  - destruct (@mode_dispatch Demo.helpers module_globals WORK_CONTRACT
                {| filename := "Report.ZIP"; content := "plain text" |} None ∅)
      as [Hzip _].
    destruct (Hzip eq_refl eq_refl) as (_ & Hall & Hdir).
    split; [exact Hall|]. apply Hdir; [by_compute|reflexivity].
  - destruct (@mode_dispatch Demo.helpers Demo.globals_with_zipfile WORK_CONTRACT
                {| filename := "scan.png"; content := "PK.." |} None ∅)
      as [_ Hsingle].
    destruct (Hsingle eq_refl eq_refl) as (_ & Hall & Hlog).
    split; [exact Hall|exact Hlog].
Defined.
